(** * Waste-prediction pipeline (WMS4/PY/Linear.py and WMS4/PY/app.py)

    Both scripts run the same preparation pipeline on two CSV tables
    (general waste [Gdata.csv], hazardous waste [Hdata.csv]):

      to_datetime -> dropna(date) -> dropna(target) -> cat.codes
        -> concat(ignore_index) -> [features] -> fillna(mean) -> train_test_split

    Linear.py lines 14-47 and app.py lines 17-50 are the same statements, but
    for [pd.to_datetime]: app.py passes [format='mixed'] and parses each date
    on its own, Linear.py lets pandas infer one format per column.  This file
    embeds each statement as a function on row-labelled tables and proves the
    properties the specification lists for them.

    Modelling conventions.
    - A pandas DataFrame is a list of rows, each paired with its index label.
    - A float64 cell is [option Q]: [None] is NaN, [Some q] a number.  Real
      arithmetic stands in for IEEE arithmetic: no rounding, no overflow, no
      infinities.
    - A categorical column holds text, the case in which [read_csv] leaves the
      column as strings; a column it types as numbers is not covered.
    - A text cell is [option string]: [None] is a missing CSV field.
    - Library calls (pandas, scikit-learn) are embedded by their documented
      behaviour; the date parser, the random generator and the estimators are
      Section variables. *)

From Stdlib Require Import String ZArith QArith Qround Qminmax Bool Arith Lia.
From Stdlib Require Import List Permutation Sorted.
Import ListNotations.

Close Scope Q_scope.
Open Scope string_scope.
Open Scope nat_scope.
Open Scope list_scope.

(** ** Tables *)

(** A table: rows in positional order, each with its index label. *)
Definition DataFrame (R : Type) := list (nat * R).

Definition index {R} (df : DataFrame R) : list nat := map fst df.
Definition rows {R} (df : DataFrame R) : list R := map snd df.

(** A fresh [RangeIndex] over the given rows: labels 0, 1, 2, ... *)
Definition range_index {R} (l : list R) : DataFrame R :=
  combine (seq 0 (length l)) l.

(** [pd.read_csv]: the parsed records under a fresh index. *)
Definition read_csv {R} (records : list R) : DataFrame R :=
  range_index records.

(** [df[c] = f(df[c])] on a row table: every row is rewritten, labels stay. *)
Definition map_rows {R S} (f : R -> S) (df : DataFrame R) : DataFrame S :=
  map (fun ir => (fst ir, f (snd ir))) df.

(** [df[c] = values]: positional assignment of a computed column. *)
Definition assign {R S V} (set : R -> V -> S) (df : DataFrame R) (values : list V)
  : DataFrame S :=
  map (fun irv => (fst (fst irv), set (snd (fst irv)) (snd irv))) (combine df values).

Definition notnull {A} (c : option A) : bool :=
  match c with Some _ => true | None => false end.

(** [df.dropna(subset=[c])]: keep the rows whose cell in column [c] is not
    null; surviving rows keep their labels. *)
Definition dropna {R A} (col : R -> option A) (df : DataFrame R) : DataFrame R :=
  filter (fun ir => notnull (col (snd ir))) df.

(** ** Records of the two input tables

    The schemas of section 6 of the specification.  [D] is the type of a
    non-null date cell (text before parsing, a timestamp after), [C1] and [C2]
    the types of the two categorical cells (text before encoding, an integer
    code after). *)

Definition Timestamp := Z.

Module G.
Record Row (D C1 C2 : Type) := mk
  { generated_date : option D;
    weight_kg : option Q;
    cost_per_kg : option Q;
    disposal_method : C1;
    recyclable : C2;
    storage_duration_days : option Q;
    predicted_waste_next_day : option Q }.
Arguments mk {D C1 C2}.
Arguments generated_date {D C1 C2}.
Arguments weight_kg {D C1 C2}.
Arguments cost_per_kg {D C1 C2}.
Arguments disposal_method {D C1 C2}.
Arguments recyclable {D C1 C2}.
Arguments storage_duration_days {D C1 C2}.
Arguments predicted_waste_next_day {D C1 C2}.

Definition set_generated_date {D D' C1 C2} (r : Row D C1 C2) (d : option D')
  : Row D' C1 C2 :=
  mk d (weight_kg r) (cost_per_kg r) (disposal_method r) (recyclable r)
     (storage_duration_days r) (predicted_waste_next_day r).

Definition set_disposal_method {D C1 C1' C2} (r : Row D C1 C2) (c : C1')
  : Row D C1' C2 :=
  mk (generated_date r) (weight_kg r) (cost_per_kg r) c (recyclable r)
     (storage_duration_days r) (predicted_waste_next_day r).

Definition set_recyclable {D C1 C2 C2'} (r : Row D C1 C2) (c : C2')
  : Row D C1 C2' :=
  mk (generated_date r) (weight_kg r) (cost_per_kg r) (disposal_method r) c
     (storage_duration_days r) (predicted_waste_next_day r).
End G.

Module H.
Record Row (D C1 C2 : Type) := mk
  { generated_date : option D;
    weight_kg : option Q;
    cost_per_kg : option Q;
    disposal_method : C1;
    hazardous : C2;
    storage_duration_days : option Q;
    predicted_waste_next_day : option Q }.
Arguments mk {D C1 C2}.
Arguments generated_date {D C1 C2}.
Arguments weight_kg {D C1 C2}.
Arguments cost_per_kg {D C1 C2}.
Arguments disposal_method {D C1 C2}.
Arguments hazardous {D C1 C2}.
Arguments storage_duration_days {D C1 C2}.
Arguments predicted_waste_next_day {D C1 C2}.

Definition set_generated_date {D D' C1 C2} (r : Row D C1 C2) (d : option D')
  : Row D' C1 C2 :=
  mk d (weight_kg r) (cost_per_kg r) (disposal_method r) (hazardous r)
     (storage_duration_days r) (predicted_waste_next_day r).

Definition set_disposal_method {D C1 C1' C2} (r : Row D C1 C2) (c : C1')
  : Row D C1' C2 :=
  mk (generated_date r) (weight_kg r) (cost_per_kg r) c (hazardous r)
     (storage_duration_days r) (predicted_waste_next_day r).

Definition set_hazardous {D C1 C2 C2'} (r : Row D C1 C2) (c : C2')
  : Row D C1 C2' :=
  mk (generated_date r) (weight_kg r) (cost_per_kg r) (disposal_method r) c
     (storage_duration_days r) (predicted_waste_next_day r).
End H.

(** Rows as read from the CSV files, and rows after cleaning. *)
Definition GRaw := G.Row string (option string) (option string).
Definition HRaw := H.Row string (option string) (option string).
Definition GClean := G.Row Timestamp Z Z.
Definition HClean := H.Row Timestamp Z Z.

(** ** Categorical encoding: [astype('category').cat.codes] *)

Fixpoint insert_sorted (s : string) (l : list string) : list string :=
  match l with
  | [] => [s]
  | x :: l' => if String.leb s x then s :: l else x :: insert_sorted s l'
  end.

Definition sort_strings (l : list string) : list string :=
  fold_right insert_sorted [] l.

(** The non-null values of a column. *)
Fixpoint present {A} (col : list (option A)) : list A :=
  match col with
  | [] => []
  | Some a :: col' => a :: present col'
  | None :: col' => present col'
  end.

(** The categories of a text column: its distinct non-null values, sorted
    as text. *)
Definition categories (col : list (option string)) : list string :=
  sort_strings (nodup string_dec (present col)).

(** Position of [s] in [l] ([length l] when absent). *)
Fixpoint position (s : string) (l : list string) : nat :=
  match l with
  | [] => 0
  | x :: l' => if String.eqb s x then 0 else S (position s l')
  end.

(** The code of one cell: the position of its value among the categories,
    and -1 for a missing value. *)
Definition code_of (cats : list string) (c : option string) : Z :=
  match c with
  | None => (-1)%Z
  | Some s => Z.of_nat (position s cats)
  end.

Definition cat_codes (col : list (option string)) : list Z :=
  map (code_of (categories col)) col.

(** ** The merged table *)

(** A row of [merged_data]: the union of the columns of both tables.  The
    encoded columns are numeric; a column absent from a row's source table
    is NaN in that row. *)
Record MRow := mkMRow
  { generated_date : option Timestamp;
    weight_kg : option Q;
    cost_per_kg : option Q;
    disposal_method : option Q;
    recyclable : option Q;
    hazardous : option Q;
    storage_duration_days : option Q;
    predicted_waste_next_day : option Q }.

Definition of_code (z : Z) : option Q := Some (inject_Z z).

Definition of_gdata (r : GClean) : MRow :=
  {| generated_date := G.generated_date r;
     weight_kg := G.weight_kg r;
     cost_per_kg := G.cost_per_kg r;
     disposal_method := of_code (G.disposal_method r);
     recyclable := of_code (G.recyclable r);
     hazardous := None;
     storage_duration_days := G.storage_duration_days r;
     predicted_waste_next_day := G.predicted_waste_next_day r |}.

Definition of_hdata (r : HClean) : MRow :=
  {| generated_date := H.generated_date r;
     weight_kg := H.weight_kg r;
     cost_per_kg := H.cost_per_kg r;
     disposal_method := of_code (H.disposal_method r);
     recyclable := None;
     hazardous := of_code (H.hazardous r);
     storage_duration_days := H.storage_duration_days r;
     predicted_waste_next_day := H.predicted_waste_next_day r |}.

(** [pd.concat([gdata, hdata], ignore_index=True)]. *)
Definition concat (gdata : DataFrame GClean) (hdata : DataFrame HClean)
  : DataFrame MRow :=
  range_index (map of_gdata (rows gdata) ++ map of_hdata (rows hdata)).

(** ** Feature selection *)

Definition features : list string :=
  ["weight_kg"; "cost_per_kg"; "disposal_method"; "recyclable"; "hazardous";
   "storage_duration_days"].

Definition target : string := "predicted_waste_next_day".

(** The numeric columns of [merged_data] by name; [None] is a [KeyError]. *)
Definition numeric_column (name : string) : option (MRow -> option Q) :=
  if String.eqb name "weight_kg" then Some weight_kg
  else if String.eqb name "cost_per_kg" then Some cost_per_kg
  else if String.eqb name "disposal_method" then Some disposal_method
  else if String.eqb name "recyclable" then Some recyclable
  else if String.eqb name "hazardous" then Some hazardous
  else if String.eqb name "storage_duration_days" then Some storage_duration_days
  else if String.eqb name "predicted_waste_next_day" then Some predicted_waste_next_day
  else None.

Fixpoint numeric_columns (names : list string) : option (list (MRow -> option Q)) :=
  match names with
  | [] => Some []
  | n :: names' =>
      match numeric_column n, numeric_columns names' with
      | Some f, Some fs => Some (f :: fs)
      | _, _ => None
      end
  end.

(** A row of the feature matrix: one cell per selected column. *)
Definition XRow := list (option Q).

(** [df[names]] for a list of names. *)
Definition getitem_list (names : list string) (df : DataFrame MRow)
  : option (DataFrame XRow) :=
  match numeric_columns names with
  | Some fs => Some (map_rows (fun r => map (fun f => f r) fs) df)
  | None => None
  end.

(** [df[name]] for one name. *)
Definition getitem (name : string) (df : DataFrame MRow)
  : option (DataFrame (option Q)) :=
  match numeric_column name with
  | Some f => Some (map_rows f df)
  | None => None
  end.

(** ** Mean imputation *)

Definition Qsum (l : list Q) : Q := fold_right Qplus (0#1)%Q l.

(** Mean of a column with NaN skipped; NaN when no value is present. *)
Definition mean_column (col : list (option Q)) : option Q :=
  match present col with
  | [] => None
  | v :: vs => Some (Qred (Qsum (v :: vs) / inject_Z (Z.of_nat (length (v :: vs)))))
  end.

(** Column [j] of the feature matrix. *)
Definition xcolumn (j : nat) (X : DataFrame XRow) : list (option Q) :=
  map (fun r => nth j r None) (rows X).

(** [X.mean()]: one mean per column. *)
Definition mean (ncols : nat) (X : DataFrame XRow) : list (option Q) :=
  map (fun j => mean_column (xcolumn j X)) (seq 0 ncols).

Definition fill_cell (c m : option Q) : option Q :=
  match c with
  | Some v => Some v
  | None => m
  end.

Fixpoint fill_row (r : XRow) (means : list (option Q)) : XRow :=
  match r, means with
  | c :: r', m :: means' => fill_cell c m :: fill_row r' means'
  | _, _ => r
  end.

(** [X.fillna(means)]: a null cell takes the value given for its column. *)
Definition fillna (X : DataFrame XRow) (means : list (option Q)) : DataFrame XRow :=
  map_rows (fun r => fill_row r means) X.

(** ** The preparation steps of both scripts *)

Section Prepare.

(** The element parser behind [pd.to_datetime]: [None] when the text is
    not a date. *)
Variable parse_date : string -> option Timestamp.

(** One entry under [errors='coerce']: an unparseable or missing entry
    becomes NaT instead of raising. *)
Definition coerce (c : option string) : option Timestamp :=
  match c with
  | Some s => parse_date s
  | None => None
  end.

(** [pd.to_datetime(col, errors='coerce', format='mixed')] of app.py: the
    column is parsed entry by entry.  Linear.py's call without [format=],
    where one format is inferred for the whole column, is
    [to_datetime_inferred] below; it is this function at the parser pandas
    settles on for the column. *)
Definition to_datetime (col : list (option string)) : list (option Timestamp) :=
  map coerce col.

(** Linear.py lines 14, 18, 22, 26, 27 (app.py 17, 21, 25, 29, 30). *)
Definition clean_gdata (gdata : DataFrame GRaw) : DataFrame GClean :=
  let gdata := assign G.set_generated_date gdata
                 (to_datetime (map G.generated_date (rows gdata))) in
  let gdata := dropna G.generated_date gdata in
  let gdata := dropna G.predicted_waste_next_day gdata in
  let gdata := assign G.set_disposal_method gdata
                 (cat_codes (map G.disposal_method (rows gdata))) in
  let gdata := assign G.set_recyclable gdata
                 (cat_codes (map G.recyclable (rows gdata))) in
  gdata.

(** Linear.py lines 15, 19, 23, 29, 30 (app.py 18, 22, 26, 32, 33). *)
Definition clean_hdata (hdata : DataFrame HRaw) : DataFrame HClean :=
  let hdata := assign H.set_generated_date hdata
                 (to_datetime (map H.generated_date (rows hdata))) in
  let hdata := dropna H.generated_date hdata in
  let hdata := dropna H.predicted_waste_next_day hdata in
  let hdata := assign H.set_disposal_method hdata
                 (cat_codes (map H.disposal_method (rows hdata))) in
  let hdata := assign H.set_hazardous hdata
                 (cat_codes (map H.hazardous (rows hdata))) in
  hdata.

(** Linear.py line 33 (app.py 36) on the two files' records. *)
Definition merged_data (gfile : list GRaw) (hfile : list HRaw) : DataFrame MRow :=
  concat (clean_gdata (read_csv gfile)) (clean_hdata (read_csv hfile)).

(** Linear.py lines 40, 41, 44 (app.py 43, 44, 47): the imputed feature
    matrix and the target vector. *)
Definition prepare (gfile : list GRaw) (hfile : list HRaw)
  : option (DataFrame XRow * DataFrame (option Q)) :=
  let merged := merged_data gfile hfile in
  match getitem_list features merged, getitem target merged with
  | Some X, Some y => Some (fillna X (mean (length features) X), y)
  | _, _ => None
  end.

(** *** The cleaner seen row by row

    What the five statements of the cleaner amount to on the records: the rows
    kept by the two [dropna] calls, and the encoding of a kept row under given
    categories.  [rows_clean_gdata] and [rows_clean_hdata] below relate them
    to [clean_gdata] and [clean_hdata]. *)

Definition kept_g (r : GRaw) : bool :=
  notnull (coerce (G.generated_date r)) && notnull (G.predicted_waste_next_day r).

Definition kept_h (r : HRaw) : bool :=
  notnull (coerce (H.generated_date r)) && notnull (H.predicted_waste_next_day r).

Definition encode_g (cats1 cats2 : list string) (r : GRaw) : GClean :=
  G.mk (coerce (G.generated_date r)) (G.weight_kg r) (G.cost_per_kg r)
       (code_of cats1 (G.disposal_method r)) (code_of cats2 (G.recyclable r))
       (G.storage_duration_days r) (G.predicted_waste_next_day r).

Definition encode_h (cats1 cats2 : list string) (r : HRaw) : HClean :=
  H.mk (coerce (H.generated_date r)) (H.weight_kg r) (H.cost_per_kg r)
       (code_of cats1 (H.disposal_method r)) (code_of cats2 (H.hazardous r))
       (H.storage_duration_days r) (H.predicted_waste_next_day r).

(** The records of the cleaned tables, in terms of the files' records. *)
Definition cleaned_g (gfile : list GRaw) : list GClean :=
  let kept := filter (kept_g) gfile in
  map (encode_g (categories (map G.disposal_method kept))
                           (categories (map G.recyclable kept))) kept.

Definition cleaned_h (hfile : list HRaw) : list HClean :=
  let kept := filter (kept_h) hfile in
  map (encode_h (categories (map H.disposal_method kept))
                           (categories (map H.hazardous kept))) kept.

End Prepare.

(** ** [sklearn.model_selection.train_test_split] *)

Definition bind {A B} (m : option A) (k : A -> option B) : option B :=
  match m with
  | Some a => k a
  | None => None
  end.

Notation "x <- m ;; k" := (bind m (fun x => k))
  (at level 61, m at next level, right associativity).

(** [df.iloc[positions]]: the rows at the given positions, in that order;
    [None] is an [IndexError]. *)
Fixpoint iloc {R} (df : DataFrame R) (positions : list nat) : option (DataFrame R) :=
  match positions with
  | [] => Some []
  | p :: ps =>
      r <- nth_error df p ;;
      rs <- iloc df ps ;;
      Some (r :: rs)
  end.

(** [ceil(test_size * n_samples)]. *)
Definition n_test_of (test_size : Q) (n_samples : nat) : nat :=
  Z.to_nat (Qceiling (test_size * inject_Z (Z.of_nat n_samples))).

(** [_validate_shuffle_split] for a fractional [test_size] strictly between
    0 and 1, as the scripts' 0.2, and no [train_size]: the pair
    [(n_train, n_test)], or [None] for the [ValueError] raised when the
    training set would be empty.  The [ValueError] for a [test_size] outside
    (0, 1) is left out. *)
Definition validate_shuffle_split (n_samples : nat) (test_size : Q)
  : option (nat * nat) :=
  let n_test := n_test_of test_size n_samples in
  let n_train := n_samples - n_test in
  if n_train =? 0 then None else Some (n_train, n_test).

Record Split := mkSplit
  { X_train : DataFrame XRow;
    X_test : DataFrame XRow;
    y_train : DataFrame (option Q);
    y_test : DataFrame (option Q) }.

(** [sklearn.metrics.mean_squared_error]; [None] when the lengths differ,
    the input is empty or a NaN is present. *)
Fixpoint squared_errors (y_true : list (option Q)) (y_pred : list Q) : option (list Q) :=
  match y_true, y_pred with
  | [], [] => Some []
  | Some t :: y_true', p :: y_pred' =>
      es <- squared_errors y_true' y_pred' ;;
      Some (((t - p) * (t - p))%Q :: es)
  | _, _ => None
  end.

Definition mean_squared_error (y_true : list (option Q)) (y_pred : list Q) : option Q :=
  es <- squared_errors y_true y_pred ;;
  match es with
  | [] => None
  | _ => Some (Qred (Qsum es / inject_Z (Z.of_nat (length es))))
  end.

Section Scripts.

(** The process environment a run starts in; it holds numpy's global
    generator, whose state differs from run to run. *)
Variable World : Type.
Variable RandomState : Type.
(** [np.random.RandomState(seed)]. *)
Variable seeded : Z -> RandomState.
(** numpy's global generator. *)
Variable global_state : World -> RandomState.
(** [rng.permutation(n)]. *)
Variable permutation : RandomState -> nat -> list nat.

Hypothesis permutation_spec :
  forall rng n, Permutation (permutation rng n) (seq 0 n).

(** [sklearn.utils.check_random_state]: an integer seeds a fresh
    generator, [None] selects the global one. *)
Definition check_random_state (w : World) (random_state : option Z) : RandomState :=
  match random_state with
  | Some seed => seeded seed
  | None => global_state w
  end.

(** [train_test_split(X, y, test_size=t, random_state=s)]: the first
    [n_test] entries of the permutation index the test rows, the rest the
    training rows. *)
Definition train_test_split (w : World) (X : DataFrame XRow)
    (y : DataFrame (option Q)) (test_size : Q) (random_state : option Z)
  : option Split :=
  if negb (length X =? length y) then None else
  sizes <- validate_shuffle_split (length X) test_size ;;
  let n_test := snd sizes in
  let n_train := fst sizes in
  let rng := check_random_state w random_state in
  let perm := permutation rng (length X) in
  let ind_test := firstn n_test perm in
  let ind_train := firstn n_train (skipn n_test perm) in
  Xtr <- iloc X ind_train ;;
  Xte <- iloc X ind_test ;;
  ytr <- iloc y ind_train ;;
  yte <- iloc y ind_test ;;
  Some (mkSplit Xtr Xte ytr yte).

(** The estimators: [fit] on the training part followed by [predict] on
    the test rows; [None] when the library raises. *)
Variable linear_regression :
  DataFrame XRow -> DataFrame (option Q) -> DataFrame XRow -> option (list Q).
Variable decision_tree :
  RandomState -> DataFrame XRow -> DataFrame (option Q) -> DataFrame XRow -> option (list Q).
Variable random_forest :
  RandomState -> DataFrame XRow -> DataFrame (option Q) -> DataFrame XRow -> option (list Q).

(** The entry parsers: the one standing for Linear.py's call when it
    parses entry by entry, and the one of app.py's [format='mixed']. *)
Variable parse_date_default : string -> option Timestamp.
Variable parse_date_mixed : string -> option Timestamp.

Definition test_size : Q := (2 # 10)%Q.
Definition seed : Z := 42%Z.

(** Linear.py lines 10-57, the split and the error of the fitted model, when
    the dates of both files are parsed entry by entry by one parser
    [parse_date_default]; [Linear_script] below is the run with the format
    inferred per column. *)
Definition Linear_main (w : World) (gfile : list GRaw) (hfile : list HRaw)
  : option (Split * Q) :=
  Xy <- prepare parse_date_default gfile hfile ;;
  s <- train_test_split w (fst Xy) (snd Xy) test_size (Some seed) ;;
  y_pred <- linear_regression (X_train s) (y_train s) (X_test s) ;;
  mse <- mean_squared_error (rows (y_test s)) y_pred ;;
  Some (s, mse).

Inductive Model :=
| LinearRegression
| DecisionTreeRegressor (random_state : option Z)
| RandomForestRegressor (random_state : option Z).

(** app.py lines 53-57. *)
Definition models : list (string * Model) :=
  [("Linear Regression", LinearRegression);
   ("Decision Tree", DecisionTreeRegressor (Some seed));
   ("Random Forest", RandomForestRegressor (Some seed))].

Definition fit_predict (w : World) (m : Model) (s : Split) : option (list Q) :=
  match m with
  | LinearRegression => linear_regression (X_train s) (y_train s) (X_test s)
  | DecisionTreeRegressor rs =>
      decision_tree (check_random_state w rs) (X_train s) (y_train s) (X_test s)
  | RandomForestRegressor rs =>
      random_forest (check_random_state w rs) (X_train s) (y_train s) (X_test s)
  end.

(** app.py lines 60-65: the loop over the models. *)
Fixpoint evaluate (w : World) (ms : list (string * Model)) (s : Split)
  : option (list (string * (list Q * Q))) :=
  match ms with
  | [] => Some []
  | (name, m) :: ms' =>
      y_pred <- fit_predict w m s ;;
      mse <- mean_squared_error (rows (y_test s)) y_pred ;;
      results <- evaluate w ms' s ;;
      Some ((name, (y_pred, mse)) :: results)
  end.

(** app.py lines 13-65. *)
Definition app_main (w : World) (gfile : list GRaw) (hfile : list HRaw)
  : option (Split * list (string * (list Q * Q))) :=
  Xy <- prepare parse_date_mixed gfile hfile ;;
  s <- train_test_split w (fst Xy) (snd Xy) test_size (Some seed) ;;
  results <- evaluate w models s ;;
  Some (s, results).

End Scripts.

(** ** Linear.py's date parsing: one format for the whole column

    Linear.py calls [pd.to_datetime] without [format=].  pandas then takes the
    first non-null entry of the column and guesses a format from it: when a
    format is found, every entry is parsed strictly with it; when none is
    found, every entry is parsed on its own.  In both cases an entry that
    does not parse becomes NaT under [errors='coerce'].  So the parser applied
    to an entry depends on the first non-null entry of its column. *)

Section InferredFormat.

Variable Format : Type.
(** The format pandas guesses from one text, if it finds one. *)
Variable guess_format : string -> option Format.
(** Strict parsing of one entry under a given format. *)
Variable strptime : Format -> string -> option Timestamp.
(** Parsing of one entry on its own, used when no format was guessed. *)
Variable parse_each : string -> option Timestamp.

Definition first_non_null (col : list (option string)) : option string :=
  hd_error (present col).

(** The entry parser pandas settles on for a column. *)
Definition column_parser (col : list (option string)) : string -> option Timestamp :=
  match first_non_null col with
  | Some s0 =>
      match guess_format s0 with
      | Some fmt => strptime fmt
      | None => parse_each
      end
  | None => parse_each
  end.

(** [pd.to_datetime(col, errors='coerce')] without [format=]. *)
Definition to_datetime_inferred (col : list (option string))
  : list (option Timestamp) :=
  map (coerce (column_parser col)) col.

(** Linear.py lines 14, 18, 22, 26, 27. *)
Definition Linear_clean_gdata (gdata : DataFrame GRaw) : DataFrame GClean :=
  let gdata := assign G.set_generated_date gdata
                 (to_datetime_inferred (map G.generated_date (rows gdata))) in
  let gdata := dropna G.generated_date gdata in
  let gdata := dropna G.predicted_waste_next_day gdata in
  let gdata := assign G.set_disposal_method gdata
                 (cat_codes (map G.disposal_method (rows gdata))) in
  let gdata := assign G.set_recyclable gdata
                 (cat_codes (map G.recyclable (rows gdata))) in
  gdata.

(** Linear.py lines 15, 19, 23, 29, 30. *)
Definition Linear_clean_hdata (hdata : DataFrame HRaw) : DataFrame HClean :=
  let hdata := assign H.set_generated_date hdata
                 (to_datetime_inferred (map H.generated_date (rows hdata))) in
  let hdata := dropna H.generated_date hdata in
  let hdata := dropna H.predicted_waste_next_day hdata in
  let hdata := assign H.set_disposal_method hdata
                 (cat_codes (map H.disposal_method (rows hdata))) in
  let hdata := assign H.set_hazardous hdata
                 (cat_codes (map H.hazardous (rows hdata))) in
  hdata.

(** Linear.py line 33. *)
Definition Linear_merged_data (gfile : list GRaw) (hfile : list HRaw)
  : DataFrame MRow :=
  concat (Linear_clean_gdata (read_csv gfile)) (Linear_clean_hdata (read_csv hfile)).

(** Linear.py lines 40, 41, 44. *)
Definition Linear_prepare (gfile : list GRaw) (hfile : list HRaw)
  : option (DataFrame XRow * DataFrame (option Q)) :=
  let merged := Linear_merged_data gfile hfile in
  match getitem_list features merged, getitem target merged with
  | Some X, Some y => Some (fillna X (mean (length features) X), y)
  | _, _ => None
  end.

Variable World : Type.
Variable RandomState : Type.
Variable seeded : Z -> RandomState.
Variable global_state : World -> RandomState.
Variable permutation : RandomState -> nat -> list nat.
Variable linear_regression :
  DataFrame XRow -> DataFrame (option Q) -> DataFrame XRow -> option (list Q).

(** Linear.py lines 10-57 with the column format inferred. *)
Definition Linear_script (w : World) (gfile : list GRaw) (hfile : list HRaw)
  : option (Split * Q) :=
  Xy <- Linear_prepare gfile hfile ;;
  s <- train_test_split World RandomState seeded global_state permutation
         w (fst Xy) (snd Xy) test_size (Some seed) ;;
  y_pred <- linear_regression (X_train s) (y_train s) (X_test s) ;;
  mse <- mean_squared_error (rows (y_test s)) y_pred ;;
  Some (s, mse).

End InferredFormat.
(** ** Presentation: the plotted series and the dashboard (Linear.py lines
    59-79, app.py lines 67-94) *)

(** [series.min()] and [series.max()]: NaN is skipped, and the result is NaN
    when no value is present. *)
Definition series_min (col : list (option Q)) : option Q :=
  match present col with
  | [] => None
  | v :: vs => Some (fold_left Qmin vs v)
  end.

Definition series_max (col : list (option Q)) : option Q :=
  match present col with
  | [] => None
  | v :: vs => Some (fold_left Qmax vs v)
  end.

(** [y_test - y_pred] of Linear.py line 71: a Series minus an array of the
    same length, element by element; NaN stays NaN.  The script always passes
    one prediction per test row; on other lengths this returns [None], and
    numpy's broadcasting of a one-element array is left out. *)
Fixpoint residuals (y_true : list (option Q)) (y_pred : list Q)
  : option (list (option Q)) :=
  match y_true, y_pred with
  | [], [] => Some []
  | t :: y_true', p :: y_pred' =>
      rs <- residuals y_true' y_pred' ;;
      Some (option_map (fun v => (v - p)%Q) t :: rs)
  | _, _ => None
  end.

(** A [go.Scatter] trace. *)
Record Scatter := mkScatter
  { sc_x : list (option Q);
    sc_y : list (option Q);
    sc_mode : string;
    sc_name : string;
    sc_line_dash : option string }.

(** A [go.Figure] with its traces and the layout fields the script sets. *)
Record Figure := mkFigure
  { fig_traces : list Scatter;
    fig_title : option string;
    fig_xaxis_title : option string;
    fig_yaxis_title : option string }.

(** [go.Figure()], [fig.add_trace] and [fig.update_layout]. *)
Definition empty_figure : Figure := mkFigure [] None None None.

Definition add_trace (fig : Figure) (t : Scatter) : Figure :=
  mkFigure (fig_traces fig ++ [t]) (fig_title fig) (fig_xaxis_title fig)
           (fig_yaxis_title fig).

Definition update_layout (fig : Figure) (title xaxis yaxis : string) : Figure :=
  mkFigure (fig_traces fig) (Some title) (Some xaxis) (Some yaxis).

(** The components of the page. *)
#[warnings="-register-all"]
Inductive Component :=
| H1 (children : string) (textAlign : string)
| DivText (children : string) (textAlign : string)
| Graph (figure : Figure)
| P (children : string) (textAlign : string)
| Div (children : list Component).

Section Dashboard.

(** [f"{mse:.2f}"]: the float printed with two decimals. *)
Variable format_2f : Q -> string.

(** app.py lines 75-82: the figure of one model. *)
Definition model_figure (y_test : list (option Q)) (name : string) (y_pred : list Q)
  : Figure :=
  let fig := empty_figure in
  let fig := add_trace fig
               (mkScatter y_test (map Some y_pred) "markers" "Predicted" None) in
  let fig := add_trace fig
               (mkScatter [series_min y_test; series_max y_test]
                          [series_min y_test; series_max y_test]
                          "lines" "Ideal" (Some "dash")) in
  update_layout fig (name ++ " - Actual vs Predicted")
                "Actual Waste (kg)" "Predicted Waste (kg)".

(** app.py line 84: the text under the figure of one model. *)
Definition model_description (name : string) (mse : Q) : string :=
  name ++ " Model: Mean Squared Error = " ++ format_2f mse ++
  ". This graph shows the relationship between actual and predicted waste values.".

(** app.py lines 71-84: the loop appends one figure and one description per
    result to the two lists. *)
Fixpoint render_loop (y_test : list (option Q))
    (results : list (string * (list Q * Q)))
    (figures : list Figure) (descriptions : list string)
  : list Figure * list string :=
  match results with
  | [] => (figures, descriptions)
  | (name, (y_pred, mse)) :: results' =>
      render_loop y_test results'
                  (figures ++ [model_figure y_test name y_pred])
                  (descriptions ++ [model_description name mse])
  end.

(** app.py lines 87-94: the page. *)
Definition layout (figures : list Figure) (descriptions : list string) : Component :=
  Div ([H1 "Waste Prediction Dashboard" "center";
        DivText "This dashboard provides insights into waste prediction using various models."
                "center"] ++
       map (fun fd => Div [Graph (fst fd); P (snd fd) "center"])
           (combine figures descriptions)).

(** app.py lines 71-94 on the outcome of the model loop. *)
Definition dashboard (y_test : list (option Q))
    (results : list (string * (list Q * Q))) : Component :=
  let fd := render_loop y_test results [] [] in
  layout (fst fd) (snd fd).

End Dashboard.

(** ** Derived views used in the statements *)

(** The selectors of the six feature columns, in the order of [features]. *)
Definition feature_columns : list (MRow -> option Q) :=
  [weight_kg; cost_per_kg; disposal_method; recyclable; hazardous;
   storage_duration_days].

(** The cells of [merged_data[features]] in one row. *)
Definition feature_row (r : MRow) : XRow := map (fun f => f r) feature_columns.

(** A column in which every null is replaced by the mean of the column's
    non-null values (the wording of section 4.4 of the specification). *)
Definition impute_with_column_mean (col : list (option Q)) : list (option Q) :=
  map (fun c => fill_cell c (mean_column col)) col.

(** A feature matrix without any null cell. *)
Definition no_nulls (X : DataFrame XRow) : Prop :=
  Forall (fun r => Forall (fun c => c <> None) r) (rows X).

(** What the specification asks of a train/test split of [X]: no index
    label in both parts, the two parts together are the rows of [X], and the
    test part holds about one fifth of the rows (the ceiling of [n/5]). *)
Definition partitions (X : DataFrame XRow) (s : Split) : Prop :=
  (forall i, In i (index (X_train s)) -> ~ In i (index (X_test s))) /\
  Permutation (X_train s ++ X_test s) X /\
  length (X_train s) + length (X_test s) = length X /\
  length X <= 5 * length (X_test s) < length X + 5.

(** ** Sample data *)

(** A small date parser for the examples: two ISO days are dates, any other
    text is not. *)
Definition example_parse_date (s : string) : option Timestamp :=
  if String.eqb s "2024-01-01" then Some 19723%Z
  else if String.eqb s "2024-01-02" then Some 19724%Z
  else None.

Definition g_landfill : GRaw :=
  G.mk (Some "2024-01-01") (Some (5#1)%Q) (Some (2#1)%Q) (Some "Landfill")
       (Some "No") (Some (3#1)%Q) (Some (6#1)%Q).

Definition g_recycle : GRaw :=
  G.mk (Some "2024-01-02") None (Some (4#1)%Q) (Some "Recycle")
       (Some "Yes") (Some (1#1)%Q) (Some (7#1)%Q).

(** A general-waste record whose date is not a date. *)
Definition g_bad_date : GRaw :=
  G.mk (Some "yesterday") (Some (9#1)%Q) (Some (9#1)%Q) (Some "Compost")
       (Some "Yes") (Some (9#1)%Q) (Some (9#1)%Q).

(** A general-waste record with both categorical fields missing. *)
Definition g_no_category : GRaw :=
  G.mk (Some "2024-01-02") (Some (8#1)%Q) (Some (1#1)%Q) None
       None (Some (2#1)%Q) (Some (3#1)%Q).

Definition h_recycle : HRaw :=
  H.mk (Some "2024-01-01") (Some (7#1)%Q) (Some (3#1)%Q) (Some "Recycle")
       (Some "Yes") (Some (2#1)%Q) (Some (8#1)%Q).

(** A hazardous-waste record with both categorical fields missing. *)
Definition h_no_category : HRaw :=
  H.mk (Some "2024-01-02") (Some (2#1)%Q) (Some (2#1)%Q) None
       None (Some (4#1)%Q) (Some (5#1)%Q).

(** Two date formats for the examples, with the texts each one reads. *)
Inductive ExampleFormat := IsoDate | MonthDayYear.

Definition example_guess_format (s : string) : option ExampleFormat :=
  if String.eqb s "2024-01-01" then Some IsoDate
  else if String.eqb s "2024-01-02" then Some IsoDate
  else if String.eqb s "Jan 2, 2024" then Some MonthDayYear
  else None.

Definition example_strptime (fmt : ExampleFormat) (s : string) : option Timestamp :=
  match fmt with
  | IsoDate => example_parse_date s
  | MonthDayYear => if String.eqb s "Jan 2, 2024" then Some 19724%Z else None
  end.

Definition example_parse_each (s : string) : option Timestamp :=
  if String.eqb s "Jan 2, 2024" then Some 19724%Z else example_parse_date s.

(** A general-waste record dated in the month-name format. *)
Definition g_month_name : GRaw :=
  G.mk (Some "Jan 2, 2024") (Some (4#1)%Q) (Some (4#1)%Q) (Some "Recycle")
       (Some "Yes") (Some (2#1)%Q) (Some (5#1)%Q).

(** A general-waste record whose date is no date in any format. *)
Definition g_not_a_date : GRaw :=
  G.mk (Some "not a date") (Some (9#1)%Q) (Some (9#1)%Q) (Some "Compost")
       (Some "Yes") (Some (9#1)%Q) (Some (9#1)%Q).

(** A two-state stand-in for the random generator: one state leaves the
    positions in order, the other reverses them. *)
Definition example_permutation (rng : bool) (n : nat) : list nat :=
  if rng then seq 0 n else rev (seq 0 n).

(** A stand-in estimator: it predicts the mean of the training targets for
    every test row, and fails on a null cell in the training features. *)
Definition example_estimator (Xtr : DataFrame XRow) (ytr : DataFrame (option Q))
    (Xte : DataFrame XRow) : option (list Q) :=
  if forallb (forallb notnull) (rows Xtr) then
    match mean_column (rows ytr) with
    | Some m => Some (map (fun _ => m) (rows Xte))
    | None => None
    end
  else None.

(** * Properties *)

(** ** Tables: labels, rows, assignment *)

Lemma length_range_index {R} (l : list R) : length (range_index l) = length l.
Proof.
  unfold range_index. rewrite length_combine, length_seq. apply Nat.min_id.
Qed.

Lemma combine_fst {A B} (l1 : list A) (l2 : list B) :
  length l1 = length l2 -> map fst (combine l1 l2) = l1.
Proof.
  revert l2. induction l1 as [|a l1 IH]; intros [|b l2] Hlen; simpl in *;
    try discriminate; auto.
  f_equal. apply IH. lia.
Qed.

Lemma combine_snd {A B} (l1 : list A) (l2 : list B) :
  length l1 = length l2 -> map snd (combine l1 l2) = l2.
Proof.
  revert l2. induction l1 as [|a l1 IH]; intros [|b l2] Hlen; simpl in *;
    try discriminate; auto.
  f_equal. apply IH. lia.
Qed.

Lemma index_range_index {R} (l : list R) : index (range_index l) = seq 0 (length l).
Proof.
  unfold index, range_index. apply combine_fst. apply length_seq.
Qed.

Lemma rows_range_index {R} (l : list R) : rows (range_index l) = l.
Proof.
  unfold rows, range_index. apply combine_snd. apply length_seq.
Qed.

Lemma rows_map_rows {R S} (f : R -> S) (df : DataFrame R) :
  rows (map_rows f df) = map f (rows df).
Proof.
  unfold rows, map_rows. rewrite !map_map. reflexivity.
Qed.

Lemma index_map_rows {R S} (f : R -> S) (df : DataFrame R) :
  index (map_rows f df) = index df.
Proof.
  unfold index, map_rows. rewrite map_map. reflexivity.
Qed.

Lemma length_rows {R} (df : DataFrame R) : length (rows df) = length df.
Proof. apply length_map. Qed.

(** Assigning a column computed cell by cell from a column of the table
    itself rewrites every row in place. *)
Lemma assign_column {R S U V} (set : R -> V -> S) (col : R -> U) (h : U -> V)
    (df : DataFrame R) :
  assign set df (map h (map col (rows df))) = map_rows (fun r => set r (h (col r))) df.
Proof.
  unfold assign, map_rows, rows.
  induction df as [|[i r] df IH]; simpl; [reflexivity|].
  f_equal. exact IH.
Qed.

Lemma rows_dropna {R A} (col : R -> option A) (df : DataFrame R) :
  rows (dropna col df) = filter (fun r => notnull (col r)) (rows df).
Proof.
  unfold rows, dropna.
  induction df as [|[i r] df IH]; simpl; [reflexivity|].
  destruct (notnull (col r)); simpl; rewrite IH; reflexivity.
Qed.

Lemma notnull_true {A} (c : option A) : notnull c = true <-> c <> None.
Proof.
  destruct c; simpl; split; intros; congruence.
Qed.

Lemma filter_filter {A} (p q : A -> bool) (l : list A) :
  filter q (filter p l) = filter (fun a => p a && q a) l.
Proof.
  induction l as [|a l IH]; simpl; [reflexivity|].
  destruct (p a); simpl; [destruct (q a)|]; rewrite IH; reflexivity.
Qed.

Lemma filter_map_comm {A B} (f : A -> B) (p : B -> bool) (l : list A) :
  filter p (map f l) = map f (filter (fun a => p (f a)) l).
Proof.
  induction l as [|a l IH]; simpl; [reflexivity|].
  destruct (p (f a)); simpl; rewrite IH; reflexivity.
Qed.

(** ** The cleaner, row by row *)

Section CleanerFacts.

Variable parse_date : string -> option Timestamp.

(** The cleaned general table keeps exactly the rows with a parseable date
    and a target, and encodes them with the categories of the kept rows. *)
Lemma rows_clean_gdata (gdata : DataFrame GRaw) :
  rows (clean_gdata parse_date gdata) =
  map (encode_g parse_date
         (categories (map G.disposal_method (filter (kept_g parse_date) (rows gdata))))
         (categories (map G.recyclable (filter (kept_g parse_date) (rows gdata)))))
      (filter (kept_g parse_date) (rows gdata)).
Proof.
  unfold clean_gdata, to_datetime, cat_codes, GRaw in *. cbv zeta.
  rewrite (assign_column G.set_generated_date G.generated_date (coerce parse_date) gdata).
  set (d3 := dropna _ (dropna _ _)).
  assert (Hd3 : rows d3 =
                map (fun r => G.set_generated_date r (coerce parse_date (G.generated_date r)))
                    (filter (kept_g parse_date) (rows gdata))).
  { unfold d3. rewrite !rows_dropna, rows_map_rows, filter_filter.
    rewrite filter_map_comm. reflexivity. }
  rewrite (assign_column G.set_disposal_method G.disposal_method _ d3).
  rewrite (assign_column G.set_recyclable G.recyclable _ (map_rows _ d3)).
  rewrite !rows_map_rows, !map_map, Hd3, !map_map. simpl.
  reflexivity.
Qed.

Lemma rows_clean_hdata (hdata : DataFrame HRaw) :
  rows (clean_hdata parse_date hdata) =
  map (encode_h parse_date
         (categories (map H.disposal_method (filter (kept_h parse_date) (rows hdata))))
         (categories (map H.hazardous (filter (kept_h parse_date) (rows hdata)))))
      (filter (kept_h parse_date) (rows hdata)).
Proof.
  unfold clean_hdata, to_datetime, cat_codes, HRaw in *. cbv zeta.
  rewrite (assign_column H.set_generated_date H.generated_date (coerce parse_date) hdata).
  set (d3 := dropna _ (dropna _ _)).
  assert (Hd3 : rows d3 =
                map (fun r => H.set_generated_date r (coerce parse_date (H.generated_date r)))
                    (filter (kept_h parse_date) (rows hdata))).
  { unfold d3. rewrite !rows_dropna, rows_map_rows, filter_filter.
    rewrite filter_map_comm. reflexivity. }
  rewrite (assign_column H.set_disposal_method H.disposal_method _ d3).
  rewrite (assign_column H.set_hazardous H.hazardous _ (map_rows _ d3)).
  rewrite !rows_map_rows, !map_map, Hd3, !map_map. simpl.
  reflexivity.
Qed.

End CleanerFacts.

(** ** Cleaning drops every row with a null date or a null target *)

(** C5.  After the cleaning step, no remaining row of either table has a null
    [generated_date] or a null [predicted_waste_next_day]. *)
Theorem cleaned_rows_have_date_and_target
    (parse_date : string -> option Timestamp)
    (gdata : DataFrame GRaw) (hdata : DataFrame HRaw) :
  Forall (fun r => G.generated_date r <> None /\ G.predicted_waste_next_day r <> None)
         (rows (clean_gdata parse_date gdata)) /\
  Forall (fun r => H.generated_date r <> None /\ H.predicted_waste_next_day r <> None)
         (rows (clean_hdata parse_date hdata)).
Proof.
  split.
  - rewrite rows_clean_gdata. apply Forall_map, Forall_forall.
    intros r Hr. apply filter_In in Hr. destruct Hr as [_ Hk].
    unfold kept_g in Hk. apply andb_true_iff in Hk. destruct Hk as [Hd Ht].
    simpl. split; apply notnull_true; assumption.
  - rewrite rows_clean_hdata. apply Forall_map, Forall_forall.
    intros r Hr. apply filter_In in Hr. destruct Hr as [_ Hk].
    unfold kept_h in Hk. apply andb_true_iff in Hk. destruct Hk as [Hd Ht].
    simpl. split; apply notnull_true; assumption.
Qed.

(** ** The merge *)

Lemma length_concat (gdata : DataFrame GClean) (hdata : DataFrame HClean) :
  length (concat gdata hdata) = length gdata + length hdata.
Proof.
  unfold concat. rewrite length_range_index, length_app, !length_map, !length_rows.
  reflexivity.
Qed.

Lemma rows_concat (gdata : DataFrame GClean) (hdata : DataFrame HClean) :
  rows (concat gdata hdata) = map of_gdata (rows gdata) ++ map of_hdata (rows hdata).
Proof.
  unfold concat. apply rows_range_index.
Qed.

(** C3.  The merged table has as many rows as both cleaned tables together,
    its index is 0, 1, ..., n-1, and its rows are the general-table rows in
    their order followed by the hazardous-table rows in their order. *)
Theorem concat_count_index_order (gdata : DataFrame GClean) (hdata : DataFrame HClean) :
  length (concat gdata hdata) = length gdata + length hdata /\
  index (concat gdata hdata) = seq 0 (length gdata + length hdata) /\
  rows (concat gdata hdata) = map of_gdata (rows gdata) ++ map of_hdata (rows hdata).
Proof.
  split; [apply length_concat|]. split; [|apply rows_concat].
  unfold concat. rewrite index_range_index, length_app, !length_map, !length_rows.
  reflexivity.
Qed.

(** ** Feature selection and imputation *)

Lemma numeric_columns_features : numeric_columns features = Some feature_columns.
Proof. reflexivity. Qed.

(** A feature name and its selector sit at the same position. *)
Lemma feature_column_at (j : nat) (name : string) (f : MRow -> option Q) :
  nth_error features j = Some name ->
  numeric_column name = Some f ->
  nth_error feature_columns j = Some f.
Proof.
  intros Hname Hf.
  do 6 (destruct j as [|j];
        [simpl in Hname; injection Hname as <-; simpl in Hf; exact Hf|]).
  destruct j; discriminate.
Qed.

Lemma nth_feature_row (j : nat) (f : MRow -> option Q) (r : MRow) :
  nth_error feature_columns j = Some f ->
  nth j (feature_row r) None = f r /\ j < length (feature_row r).
Proof.
  intros Hf. unfold feature_row. split.
  - apply nth_error_nth. rewrite nth_error_map, Hf. reflexivity.
  - rewrite length_map. apply nth_error_Some. congruence.
Qed.

Lemma fill_cell_None (c : option Q) : fill_cell c None = c.
Proof. destruct c; reflexivity. Qed.

Lemma nth_fill_row (j : nat) (r : XRow) (means : list (option Q)) :
  j < length r ->
  nth j (fill_row r means) None = fill_cell (nth j r None) (nth j means None).
Proof.
  revert r means. induction j as [|j IH]; intros [|c r] [|m means] Hlt;
    simpl in *; try lia; try (symmetry; apply fill_cell_None); auto.
  apply IH. lia.
Qed.

Lemma nth_mean (j ncols : nat) (X : DataFrame XRow) :
  j < ncols -> nth j (mean ncols X) None = mean_column (xcolumn j X).
Proof.
  intros Hlt. unfold mean. apply nth_error_nth.
  rewrite nth_error_map, nth_error_seq.
  - apply Nat.ltb_lt in Hlt. rewrite Hlt. reflexivity.
Qed.

(** Column [j] of the imputed feature matrix is column [j] of the merged
    table with its nulls replaced by that column's mean. *)
Lemma xcolumn_fillna_mean (df : DataFrame MRow) (j : nat) (f : MRow -> option Q) :
  nth_error feature_columns j = Some f ->
  let X := map_rows feature_row df in
  xcolumn j (fillna X (mean (length features) X)) =
  impute_with_column_mean (map f (rows df)).
Proof.
  intros Hf X.
  assert (Hcol : xcolumn j X = map f (rows df)).
  { unfold xcolumn, X. rewrite rows_map_rows, map_map.
    apply map_ext. intros r. apply (nth_feature_row j f r Hf). }
  assert (Hj : j < length features).
  { change (length features) with (length feature_columns).
    apply nth_error_Some. congruence. }
  unfold impute_with_column_mean. rewrite <- Hcol.
  unfold xcolumn at 1, fillna. rewrite rows_map_rows, map_map.
  unfold xcolumn at 2. rewrite map_map.
  apply map_ext_in. intros r Hr.
  rewrite nth_fill_row, nth_mean by
    (try exact Hj; unfold X in Hr; rewrite rows_map_rows in Hr;
     apply in_map_iff in Hr; destruct Hr as [r0 [<- _]];
     apply (nth_feature_row j f r0 Hf)).
  reflexivity.
Qed.

(** The preparation always succeeds on tables of the expected schema. *)
Lemma prepare_eq (parse_date : string -> option Timestamp)
    (gfile : list GRaw) (hfile : list HRaw) :
  let merged := merged_data parse_date gfile hfile in
  let X := map_rows feature_row merged in
  prepare parse_date gfile hfile =
  Some (fillna X (mean (length features) X), map_rows predicted_waste_next_day merged).
Proof. reflexivity. Qed.

Lemma present_In {A} (col : list (option A)) (v : A) :
  In v (present col) <-> In (Some v) col.
Proof.
  induction col as [|[a|] col IH]; simpl.
  - tauto.
  - rewrite IH. split; intros [E|E]; auto; left; congruence.
  - rewrite IH. split; [auto|]. intros [E|E]; [discriminate|exact E].
Qed.

Lemma mean_column_Some (col : list (option Q)) (v : Q) :
  In (Some v) col -> mean_column col <> None.
Proof.
  intros Hin. apply present_In in Hin. unfold mean_column.
  destruct (present col); [contradiction|discriminate].
Qed.

Lemma mean_column_all_null (col : list (option Q)) :
  Forall (fun c => c = None) col -> mean_column col = None.
Proof.
  intros Hall. unfold mean_column.
  destruct (present col) as [|v vs] eqn:E; [reflexivity|].
  assert (Hin : In (Some v) col) by (apply present_In; rewrite E; left; reflexivity).
  rewrite Forall_forall in Hall. apply Hall in Hin. discriminate.
Qed.

(** When it is defined, the mean is the sum of the non-null values divided by
    their number. *)
Lemma mean_column_value (col : list (option Q)) (m : Q) :
  mean_column col = Some m ->
  present col <> [] /\
  (m == Qsum (present col) / inject_Z (Z.of_nat (length (present col))))%Q.
Proof.
  unfold mean_column. destruct (present col) as [|v vs]; [discriminate|].
  set (q := (Qsum (v :: vs) / inject_Z (Z.of_nat (length (v :: vs))))%Q).
  intros E. assert (Hm : m = Qred q) by congruence.
  split; [discriminate|]. rewrite Hm. apply Qred_correct.
Qed.

(** An imputed column has no null left, unless it had nothing but nulls. *)
Lemma impute_null_free_or_all_null (col : list (option Q)) :
  Forall (fun c => c <> None) (impute_with_column_mean col) \/
  (Forall (fun c => c = None) col /\
   Forall (fun c => c = None) (impute_with_column_mean col)).
Proof.
  unfold impute_with_column_mean.
  destruct (mean_column col) as [m|] eqn:Hm.
  - left. apply Forall_map, Forall_forall. intros [v|] _; simpl; discriminate.
  - right.
    assert (Hall : Forall (fun c => c = None) col).
    { apply Forall_forall. intros [v|] Hin; [|reflexivity].
      exfalso. exact (mean_column_Some col v Hin Hm). }
    split; [exact Hall|].
    apply Forall_map. revert Hall. apply Forall_impl.
    intros c ->. reflexivity.
Qed.

(** C7.  Every null of a feature column is replaced by the mean of the
    non-null values of that column over all rows of the merged table, in the
    matrix that is later split; that mean is the sum of the non-null values
    divided by their number; and the column [1.0, NaN, 3.0] imputes to
    [1.0, 2.0, 3.0]. *)
Theorem imputation_uses_merged_column_mean :
  (forall (parse_date : string -> option Timestamp) (gfile : list GRaw)
          (hfile : list HRaw) (j : nat) (name : string) (f : MRow -> option Q),
      nth_error features j = Some name ->
      numeric_column name = Some f ->
      exists X y,
        prepare parse_date gfile hfile = Some (X, y) /\
        xcolumn j X =
        impute_with_column_mean (map f (rows (merged_data parse_date gfile hfile)))) /\
  (forall (col : list (option Q)) (m : Q),
      mean_column col = Some m ->
      present col <> [] /\
      (m == Qsum (present col) / inject_Z (Z.of_nat (length (present col))))%Q) /\
  (let X := range_index [[Some (1#1)%Q]; [None]; [Some (3#1)%Q]] in
   fillna X (mean 1 X) = range_index [[Some (1#1)%Q]; [Some (2#1)%Q]; [Some (3#1)%Q]]).
Proof.
  split; [|split].
  - intros parse_date gfile hfile j name f Hname Hf.
    eexists. eexists. split; [apply prepare_eq|].
    apply xcolumn_fillna_mean. exact (feature_column_at j name f Hname Hf).
  - exact mean_column_value.
  - reflexivity.
Qed.

(** C1, as amended.  After imputation each of the six feature columns is
    free of nulls, unless every entry of that column is null in the merged
    table, in which case the column stays entirely null. *)
Theorem imputed_column_null_free_or_all_null
    (parse_date : string -> option Timestamp) (gfile : list GRaw) (hfile : list HRaw)
    (j : nat) (name : string) (f : MRow -> option Q) :
  nth_error features j = Some name ->
  numeric_column name = Some f ->
  exists X y,
    prepare parse_date gfile hfile = Some (X, y) /\
    (Forall (fun c => c <> None) (xcolumn j X) \/
     (Forall (fun c => c = None) (map f (rows (merged_data parse_date gfile hfile))) /\
      Forall (fun c => c = None) (xcolumn j X))).
Proof.
  intros Hname Hf.
  eexists. eexists. split; [apply prepare_eq|].
  rewrite (xcolumn_fillna_mean _ j f (feature_column_at j name f Hname Hf)).
  apply impute_null_free_or_all_null.
Qed.

(** C2, as amended.  The feature list references both [recyclable] and
    [hazardous]: columns 3 and 4 of the selected feature matrix are the
    [recyclable] and [hazardous] columns of the merged table. *)
Theorem recyclable_and_hazardous_are_features :
  nth_error features 3 = Some "recyclable" /\
  nth_error features 4 = Some "hazardous" /\
  forall (parse_date : string -> option Timestamp) (gfile : list GRaw) (hfile : list HRaw),
    let merged := merged_data parse_date gfile hfile in
    exists X,
      getitem_list features merged = Some X /\
      xcolumn 3 X = map recyclable (rows merged) /\
      xcolumn 4 X = map hazardous (rows merged).
Proof.
  split; [reflexivity|]. split; [reflexivity|].
  intros parse_date gfile hfile merged.
  exists (map_rows feature_row merged). split; [reflexivity|].
  unfold xcolumn. rewrite rows_map_rows, !map_map. split; reflexivity.
Qed.

Lemma imputation_uses_merged_column_mean_witness :
  nth_error features 0 = Some "weight_kg" /\
  numeric_column "weight_kg" = Some weight_kg /\
  exists X y,
    prepare example_parse_date [g_landfill; g_recycle] [h_recycle] = Some (X, y) /\
    xcolumn 0 X =
    impute_with_column_mean
      (map weight_kg
         (rows (merged_data example_parse_date [g_landfill; g_recycle] [h_recycle]))).
Proof.
  split; [reflexivity|]. split; [reflexivity|].
  apply (proj1 imputation_uses_merged_column_mean
           example_parse_date [g_landfill; g_recycle] [h_recycle] 0 "weight_kg" weight_kg);
    reflexivity.
Defined.

Lemma imputed_column_null_free_or_all_null_witness :
  nth_error features 3 = Some "recyclable" /\
  numeric_column "recyclable" = Some recyclable /\
  exists X y,
    prepare example_parse_date [] [h_recycle] = Some (X, y) /\
    (Forall (fun c => c <> None) (xcolumn 3 X) \/
     (Forall (fun c => c = None)
             (map recyclable (rows (merged_data example_parse_date [] [h_recycle]))) /\
      Forall (fun c => c = None) (xcolumn 3 X))).
Proof.
  split; [reflexivity|]. split; [reflexivity|].
  apply (imputed_column_null_free_or_all_null
           example_parse_date [] [h_recycle] 3 "recyclable" recyclable);
    reflexivity.
Defined.

(** When the general table is empty after cleaning, the [recyclable] column of
    the merged table holds only nulls, its mean is NaN, and the imputed feature
    matrix still has a null in that column. *)
Lemma imputed_matrix_with_null :
  exists X y,
    prepare example_parse_date [] [h_recycle] = Some (X, y) /\
    xcolumn 3 X = [None] /\
    ~ no_nulls X.
Proof.
  eexists. eexists. split; [reflexivity|]. split; [reflexivity|].
  unfold no_nulls. intros Hall. cbv in Hall.
  apply Forall_inv in Hall. do 3 apply Forall_inv_tail in Hall.
  apply Forall_inv in Hall. apply Hall. reflexivity.
Qed.

(** The claim that [recyclable] is absent from the feature list fails. *)
Lemma recyclable_in_feature_list :
  ~ (In "hazardous" features /\ ~ In "recyclable" features).
Proof.
  intros [_ Hnot]. apply Hnot. simpl. tauto.
Qed.

(** ** From the files to the feature matrix *)

Section PipelineFacts.

Variable parse_date : string -> option Timestamp.

Lemma rows_clean_gdata_read_csv (gfile : list GRaw) :
  rows (clean_gdata parse_date (read_csv gfile)) = cleaned_g parse_date gfile.
Proof.
  rewrite rows_clean_gdata. unfold read_csv. rewrite rows_range_index. reflexivity.
Qed.

Lemma rows_clean_hdata_read_csv (hfile : list HRaw) :
  rows (clean_hdata parse_date (read_csv hfile)) = cleaned_h parse_date hfile.
Proof.
  rewrite rows_clean_hdata. unfold read_csv. rewrite rows_range_index. reflexivity.
Qed.

Lemma merged_data_eq (gfile : list GRaw) (hfile : list HRaw) :
  merged_data parse_date gfile hfile =
  range_index (map of_gdata (cleaned_g parse_date gfile) ++
               map of_hdata (cleaned_h parse_date hfile)).
Proof.
  unfold merged_data, concat.
  rewrite rows_clean_gdata_read_csv, rows_clean_hdata_read_csv. reflexivity.
Qed.

(** A record whose date does not parse leaves no trace in the cleaned rows. *)
Lemma cleaned_g_drop (gfile1 gfile2 : list GRaw) (bad : GRaw) :
  coerce parse_date (G.generated_date bad) = None ->
  cleaned_g parse_date (gfile1 ++ bad :: gfile2) = cleaned_g parse_date (gfile1 ++ gfile2).
Proof.
  intros Hbad. unfold cleaned_g.
  assert (E : filter (kept_g parse_date) (gfile1 ++ bad :: gfile2) =
              filter (kept_g parse_date) (gfile1 ++ gfile2)).
  { rewrite !filter_app. simpl. unfold kept_g at 2. rewrite Hbad. reflexivity. }
  rewrite E. reflexivity.
Qed.

Lemma cleaned_h_drop (hfile1 hfile2 : list HRaw) (bad : HRaw) :
  coerce parse_date (H.generated_date bad) = None ->
  cleaned_h parse_date (hfile1 ++ bad :: hfile2) = cleaned_h parse_date (hfile1 ++ hfile2).
Proof.
  intros Hbad. unfold cleaned_h.
  assert (E : filter (kept_h parse_date) (hfile1 ++ bad :: hfile2) =
              filter (kept_h parse_date) (hfile1 ++ hfile2)).
  { rewrite !filter_app. simpl. unfold kept_h at 2. rewrite Hbad. reflexivity. }
  rewrite E. reflexivity.
Qed.

Lemma prepare_drop_g (gfile1 gfile2 : list GRaw) (bad : GRaw) (hfile : list HRaw) :
  coerce parse_date (G.generated_date bad) = None ->
  prepare parse_date (gfile1 ++ bad :: gfile2) hfile =
  prepare parse_date (gfile1 ++ gfile2) hfile.
Proof.
  intros Hbad. unfold prepare.
  rewrite !merged_data_eq, (cleaned_g_drop _ _ _ Hbad). reflexivity.
Qed.

Lemma prepare_drop_h (gfile : list GRaw) (hfile1 hfile2 : list HRaw) (bad : HRaw) :
  coerce parse_date (H.generated_date bad) = None ->
  prepare parse_date gfile (hfile1 ++ bad :: hfile2) =
  prepare parse_date gfile (hfile1 ++ hfile2).
Proof.
  intros Hbad. unfold prepare.
  rewrite !merged_data_eq, (cleaned_h_drop _ _ _ Hbad). reflexivity.
Qed.

(** [errors='coerce']: the parsed column has one entry per input entry, and
    the entry of a text that is not a date is NaT. *)
Lemma to_datetime_coerces (col : list (option string)) :
  length (to_datetime parse_date col) = length col /\
  forall i s, nth_error col i = Some (Some s) -> parse_date s = None ->
              nth_error (to_datetime parse_date col) i = Some None.
Proof.
  unfold to_datetime. split; [apply length_map|].
  intros i s Hi Hs. rewrite nth_error_map, Hi. simpl. rewrite Hs. reflexivity.
Qed.

End PipelineFacts.

(** ** Missing categorical values *)

Lemma rows_fillna (X : DataFrame XRow) (means : list (option Q)) :
  rows (fillna X means) = map (fun r => fill_row r means) (rows X).
Proof. unfold fillna. apply rows_map_rows. Qed.

(** A cell that holds a value is left alone by the imputation. *)
Lemma nth_fill_row_value (j : nat) (f : MRow -> option Q) (r : MRow)
    (means : list (option Q)) (v : Q) :
  nth_error feature_columns j = Some f ->
  f r = Some v ->
  nth j (fill_row (feature_row r) means) None = Some v.
Proof.
  intros Hf Hv. destruct (nth_feature_row j f r Hf) as [Hnth Hlt].
  rewrite nth_fill_row by exact Hlt. rewrite Hnth, Hv. reflexivity.
Qed.


(** ** Categorical codes *)

Lemma insert_sorted_perm (s : string) (l : list string) :
  Permutation (insert_sorted s l) (s :: l).
Proof.
  induction l as [|x l IH]; simpl; [reflexivity|].
  destruct (String.leb s x); [reflexivity|].
  rewrite IH. apply perm_swap.
Qed.

Lemma sort_strings_perm (l : list string) : Permutation (sort_strings l) l.
Proof.
  induction l as [|x l IH]; simpl; [reflexivity|].
  rewrite insert_sorted_perm. apply perm_skip. exact IH.
Qed.

Lemma insert_sorted_Sorted (s : string) (l : list string) :
  Sorted (fun a b => String.leb a b = true) l ->
  Sorted (fun a b => String.leb a b = true) (insert_sorted s l).
Proof.
  induction 1 as [|x l Hs IH Hhd]; simpl.
  - repeat constructor.
  - destruct (String.leb s x) eqn:E.
    + constructor; [constructor; assumption|]. constructor. exact E.
    + assert (Hxs : String.leb x s = true)
        by (destruct (String.leb_total s x) as [H0|H0]; congruence).
      constructor; [exact IH|].
      destruct l as [|y l]; simpl.
      * constructor. exact Hxs.
      * destruct (String.leb s y); constructor;
          [exact Hxs | inversion Hhd; assumption].
Qed.

(** The categories come in increasing order. *)
Lemma categories_Sorted (col : list (option string)) :
  Sorted (fun a b => String.leb a b = true) (categories col).
Proof.
  unfold categories, sort_strings.
  induction (nodup string_dec (present col)) as [|x l IH]; simpl.
  - constructor.
  - apply insert_sorted_Sorted. exact IH.
Qed.

(** The categories are exactly the values that occur, each once. *)
Lemma categories_In (col : list (option string)) (s : string) :
  In s (categories col) <-> In (Some s) col.
Proof.
  unfold categories. split; intros Hin.
  - apply present_In. apply (nodup_In string_dec).
    eapply Permutation_in; [apply sort_strings_perm | exact Hin].
  - apply present_In in Hin. apply (nodup_In string_dec) in Hin.
    eapply Permutation_in; [symmetry; apply sort_strings_perm | exact Hin].
Qed.

Lemma categories_NoDup (col : list (option string)) : NoDup (categories col).
Proof.
  unfold categories.
  apply (Permutation_NoDup (l := nodup string_dec (present col))).
  - symmetry. apply sort_strings_perm.
  - apply NoDup_nodup.
Qed.

Lemma position_In (s : string) (l : list string) :
  In s l -> position s l < length l /\ nth_error l (position s l) = Some s.
Proof.
  induction l as [|x l IH]; simpl; [contradiction|].
  intros Hin. destruct (String.eqb_spec s x) as [->|Hne].
  - split; [lia|reflexivity].
  - destruct Hin as [E|Hin]; [congruence|].
    destruct (IH Hin) as [Hlt Hnth]. split; [lia|exact Hnth].
Qed.

Lemma position_nth (l : list string) (i : nat) (s : string) :
  NoDup l -> nth_error l i = Some s -> position s l = i.
Proof.
  intros Hnd. revert i. induction Hnd as [|x l Hx Hnd IH]; intros [|i] Hi;
    simpl in *; try discriminate.
  - injection Hi as ->. rewrite String.eqb_refl. reflexivity.
  - destruct (String.eqb_spec s x) as [->|Hne].
    + exfalso. apply Hx. eapply nth_error_In. exact Hi.
    + f_equal. apply IH. exact Hi.
Qed.

(** What [cat.codes] assigns within one column: -1 to a missing value, and to
    a present value the position of that value among the column's categories. *)
Lemma cat_codes_dense (col : list (option string)) :
  length (cat_codes col) = length col /\
  (forall i, nth_error col i = Some None -> nth_error (cat_codes col) i = Some (-1)%Z) /\
  (forall i s, nth_error col i = Some (Some s) ->
     exists k, nth_error (cat_codes col) i = Some (Z.of_nat k) /\
               k < length (categories col) /\
               nth_error (categories col) k = Some s) /\
  (forall k, k < length (categories col) ->
     exists i, nth_error (cat_codes col) i = Some (Z.of_nat k)).
Proof.
  unfold cat_codes. split; [apply length_map|]. split; [|split].
  - intros i Hi. rewrite nth_error_map, Hi. reflexivity.
  - intros i s Hi. exists (position s (categories col)).
    rewrite nth_error_map, Hi. split; [reflexivity|].
    apply position_In, categories_In. eapply nth_error_In. exact Hi.
  - intros k Hk.
    destruct (nth_error (categories col) k) as [s|] eqn:Hs;
      [|apply nth_error_None in Hs; lia].
    assert (Hin : In (Some s) col)
      by (apply categories_In; eapply nth_error_In; exact Hs).
    apply In_nth_error in Hin. destruct Hin as [i Hi]. exists i.
    rewrite nth_error_map, Hi. simpl.
    rewrite (position_nth _ k s (categories_NoDup col) Hs). reflexivity.
Qed.

(** C8.  Each table's codes are [cat.codes] of that table's own cleaned
    column and of nothing else; within a column the codes number the distinct
    values densely from 0; and there are inputs in which the label "Recycle"
    of [disposal_method] is coded 1 in the general table and 0 in the
    hazardous table. *)
Theorem codes_are_derived_per_dataset :
  (forall (parse_date : string -> option Timestamp)
          (gdata : DataFrame GRaw) (hdata : DataFrame HRaw),
      map G.disposal_method (rows (clean_gdata parse_date gdata)) =
      cat_codes (map G.disposal_method (filter (kept_g parse_date) (rows gdata))) /\
      map G.recyclable (rows (clean_gdata parse_date gdata)) =
      cat_codes (map G.recyclable (filter (kept_g parse_date) (rows gdata))) /\
      map H.disposal_method (rows (clean_hdata parse_date hdata)) =
      cat_codes (map H.disposal_method (filter (kept_h parse_date) (rows hdata))) /\
      map H.hazardous (rows (clean_hdata parse_date hdata)) =
      cat_codes (map H.hazardous (filter (kept_h parse_date) (rows hdata)))) /\
  (forall col : list (option string),
      length (cat_codes col) = length col /\
      (forall i, nth_error col i = Some None ->
                 nth_error (cat_codes col) i = Some (-1)%Z) /\
      (forall i s, nth_error col i = Some (Some s) ->
         exists k, nth_error (cat_codes col) i = Some (Z.of_nat k) /\
                   k < length (categories col) /\
                   nth_error (categories col) k = Some s) /\
      (forall k, k < length (categories col) ->
         exists i, nth_error (cat_codes col) i = Some (Z.of_nat k))) /\
  (G.disposal_method g_recycle = Some "Recycle" /\
   H.disposal_method h_recycle = Some "Recycle" /\
   map G.disposal_method
       (rows (clean_gdata example_parse_date (read_csv [g_landfill; g_recycle]))) =
   [0; 1]%Z /\
   map H.disposal_method
       (rows (clean_hdata example_parse_date (read_csv [h_recycle]))) = [0]%Z /\
   map disposal_method
       (rows (merged_data example_parse_date [g_landfill; g_recycle] [h_recycle])) =
   [of_code 0; of_code 1; of_code 0]).
Proof.
  split; [|split].
  - intros parse_date gdata hdata.
    rewrite rows_clean_gdata, rows_clean_hdata. unfold cat_codes.
    rewrite !map_map. simpl. repeat split; reflexivity.
  - exact cat_codes_dense.
  - repeat split; reflexivity.
Qed.

(** ** The split *)

Lemma ceil_fifth (z : Z) :
  (Qceiling (test_size * inject_Z z) = - ((- (2 * z)) / 10))%Z.
Proof.
  unfold test_size, Qceiling, Qfloor, Qmult, Qopp, inject_Z. cbn [Qnum Qden].
  change (Z.pos (10 * 1)) with 10%Z. reflexivity.
Qed.

(** The test size is the ceiling of a fifth of the sample count. *)
Lemma n_test_of_bounds (n : nat) :
  n <= 5 * n_test_of test_size n < n + 5.
Proof.
  unfold n_test_of. rewrite ceil_fifth.
  assert (H : (Z.of_nat n <= 5 * (- ((- (2 * Z.of_nat n)) / 10)) < Z.of_nat n + 5)%Z)
    by (Z.to_euclidean_division_equations; lia).
  lia.
Qed.

Lemma validate_shuffle_split_Some (n : nat) :
  2 <= n ->
  validate_shuffle_split n test_size =
  Some (n - n_test_of test_size n, n_test_of test_size n) /\
  n_test_of test_size n < n.
Proof.
  intros Hn. pose proof (n_test_of_bounds n) as Hb.
  unfold validate_shuffle_split.
  destruct (Nat.eqb_spec (n - n_test_of test_size n) 0) as [E|E]; [lia|].
  split; [reflexivity|lia].
Qed.

Lemma validate_shuffle_split_None (n : nat) :
  n < 2 -> validate_shuffle_split n test_size = None.
Proof.
  intros Hn. pose proof (n_test_of_bounds n) as Hb.
  unfold validate_shuffle_split.
  destruct (Nat.eqb_spec (n - n_test_of test_size n) 0) as [E|E]; [reflexivity|lia].
Qed.

Section Iloc.

Context {R : Type}.
Implicit Types (df rs : DataFrame R) (ps : list nat).

Lemma iloc_app df ps1 ps2 :
  iloc df (ps1 ++ ps2) =
  (rs1 <- iloc df ps1 ;; rs2 <- iloc df ps2 ;; Some (rs1 ++ rs2)).
Proof.
  induction ps1 as [|p ps1 IH]; simpl.
  - destruct (iloc df ps2); reflexivity.
  - destruct (nth_error df p) as [r|]; simpl; [|reflexivity].
    rewrite IH. destruct (iloc df ps1) as [rs1|]; simpl; [|reflexivity].
    destruct (iloc df ps2); reflexivity.
Qed.

Lemma iloc_length df ps rs : iloc df ps = Some rs -> length rs = length ps.
Proof.
  revert rs. induction ps as [|p ps IH]; simpl; intros rs E.
  - injection E as <-. reflexivity.
  - destruct (nth_error df p) as [r|]; simpl in E; [|discriminate].
    destruct (iloc df ps) as [rs'|]; simpl in E; [|discriminate].
    injection E as <-. simpl. f_equal. apply IH. reflexivity.
Qed.

(** Taking every position in order gives the table back. *)
Lemma iloc_seq (pre df : DataFrame R) :
  iloc (pre ++ df) (seq (length pre) (length df)) = Some df.
Proof.
  revert pre. induction df as [|r df IH]; intros pre; simpl; [reflexivity|].
  rewrite nth_error_app2, Nat.sub_diag by lia. simpl.
  specialize (IH (pre ++ [r])).
  rewrite <- app_assoc, length_app in IH. simpl in IH.
  rewrite Nat.add_1_r in IH. rewrite IH. reflexivity.
Qed.

(** Permuting the positions permutes the rows taken. *)
Lemma iloc_perm df ps ps' :
  Permutation ps ps' ->
  forall rs, iloc df ps = Some rs ->
  exists rs', iloc df ps' = Some rs' /\ Permutation rs rs'.
Proof.
  induction 1 as [|p ps ps' Hp IH|p q ps|ps ps' ps'' H1 IH1 H2 IH2]; intros rs E.
  - exists rs. split; [exact E|reflexivity].
  - simpl in *. destruct (nth_error df p) as [r|]; simpl in *; [|discriminate].
    destruct (iloc df ps) as [rs0|]; simpl in *; [|discriminate].
    injection E as <-. destruct (IH rs0 eq_refl) as [rs' [E' Hperm]].
    rewrite E'. simpl. exists (r :: rs'). split; [reflexivity|].
    apply perm_skip. exact Hperm.
  - simpl in *. destruct (nth_error df q) as [rq|]; simpl in *; [|discriminate].
    destruct (nth_error df p) as [rp|]; simpl in *; [|discriminate].
    destruct (iloc df ps) as [rs0|]; simpl in *; [|discriminate].
    injection E as <-. exists (rp :: rq :: rs0). split; [reflexivity|].
    apply perm_swap.
  - destruct (IH1 rs E) as [rs' [E' Hperm']].
    destruct (IH2 rs' E') as [rs'' [E'' Hperm'']].
    exists rs''. split; [exact E''|]. etransitivity; eassumption.
Qed.

(** Splitting a permutation of all positions after its first [k] entries
    splits the table into two parts that together hold every row once. *)
Lemma iloc_split df ps (k : nat) :
  Permutation ps (seq 0 (length df)) ->
  k <= length df ->
  exists rs1 rs2,
    iloc df (firstn k ps) = Some rs1 /\
    iloc df (firstn (length df - k) (skipn k ps)) = Some rs2 /\
    length rs1 = k /\
    length rs2 = length df - k /\
    Permutation (rs2 ++ rs1) df.
Proof.
  intros Hperm Hk.
  assert (Hlen : length ps = length df)
    by (rewrite (Permutation_length Hperm); apply length_seq).
  destruct (iloc_perm df _ _ (Permutation_sym Hperm) df (iloc_seq [] df))
    as [rs [E Hrs]].
  rewrite <- (firstn_skipn k ps), iloc_app in E.
  destruct (iloc df (firstn k ps)) as [rs1|] eqn:E1; simpl in E; [|discriminate].
  destruct (iloc df (skipn k ps)) as [rs2|] eqn:E2; simpl in E; [|discriminate].
  injection E as <-.
  exists rs1, rs2.
  assert (Hall : firstn (length df - k) (skipn k ps) = skipn k ps)
    by (apply firstn_all2; rewrite length_skipn; lia).
  rewrite Hall. split; [reflexivity|]. split; [exact E2|].
  split; [|split].
  - rewrite (iloc_length _ _ _ E1), length_firstn. lia.
  - rewrite (iloc_length _ _ _ E2), length_skipn. lia.
  - rewrite Permutation_app_comm. symmetry. exact Hrs.
Qed.

End Iloc.

(** ** The scripts *)

Lemma index_prepare (parse_date : string -> option Timestamp)
    (gfile : list GRaw) (hfile : list HRaw) (X : DataFrame XRow)
    (y : DataFrame (option Q)) :
  prepare parse_date gfile hfile = Some (X, y) ->
  index X = seq 0 (length (merged_data parse_date gfile hfile)) /\
  length X = length (merged_data parse_date gfile hfile) /\
  length y = length (merged_data parse_date gfile hfile).
Proof.
  rewrite prepare_eq. intros E. injection E as <- <-.
  unfold fillna. rewrite index_map_rows, index_map_rows.
  unfold map_rows. rewrite !length_map. repeat split.
  set (m := merged_data parse_date gfile hfile).
  unfold m at 1, merged_data, concat. rewrite index_range_index.
  f_equal. unfold m, merged_data, concat. rewrite length_range_index. reflexivity.
Qed.

Lemma NoDup_app_disjoint {A} (l1 l2 : list A) (x : A) :
  NoDup (l1 ++ l2) -> In x l1 -> ~ In x l2.
Proof.
  induction l1 as [|a l1 IH]; simpl; [contradiction|].
  intros Hnd [->|Hin] Hin2.
  - apply NoDup_cons_iff in Hnd. apply (proj1 Hnd). apply in_or_app. right. exact Hin2.
  - apply NoDup_cons_iff in Hnd. exact (IH (proj2 Hnd) Hin Hin2).
Qed.

Section ScriptFacts.

Variable World : Type.
Variable RandomState : Type.
Variable seeded : Z -> RandomState.
Variable global_state : World -> RandomState.
Variable permutation : RandomState -> nat -> list nat.

Hypothesis permutation_spec :
  forall rng n, Permutation (permutation rng n) (seq 0 n).

Variable linear_regression :
  DataFrame XRow -> DataFrame (option Q) -> DataFrame XRow -> option (list Q).
Variable decision_tree :
  RandomState -> DataFrame XRow -> DataFrame (option Q) -> DataFrame XRow -> option (list Q).
Variable random_forest :
  RandomState -> DataFrame XRow -> DataFrame (option Q) -> DataFrame XRow -> option (list Q).
Variable parse_date_default : string -> option Timestamp.
Variable parse_date_mixed : string -> option Timestamp.

Local Abbreviation split_with :=
  (train_test_split World RandomState seeded global_state permutation).
Local Abbreviation run_Linear :=
  (Linear_main World RandomState seeded global_state permutation
     linear_regression parse_date_default).
Local Abbreviation run_app :=
  (app_main World RandomState seeded global_state permutation
     linear_regression decision_tree random_forest parse_date_mixed).

(** On at least two rows the split succeeds and partitions the table. *)
Lemma train_test_split_partitions (w : World) (X : DataFrame XRow)
    (y : DataFrame (option Q)) (random_state : option Z) :
  length X = length y ->
  NoDup (index X) ->
  2 <= length X ->
  exists s, split_with w X y test_size random_state = Some s /\ partitions X s.
Proof.
  intros Hlen Hnd Hn.
  destruct (validate_shuffle_split_Some (length X) Hn) as [Hv Hlt].
  pose proof (n_test_of_bounds (length X)) as Hb.
  set (n_test := n_test_of test_size (length X)) in *.
  set (rng := check_random_state World RandomState seeded global_state w random_state).
  pose proof (permutation_spec rng (length X)) as Hperm.
  destruct (iloc_split X _ n_test Hperm (Nat.lt_le_incl _ _ Hlt))
    as [Xte [Xtr [EXte [EXtr [Lte [Ltr HpX]]]]]].
  assert (Hperm' : Permutation (permutation rng (length X)) (seq 0 (length y)))
    by (rewrite <- Hlen; exact Hperm).
  assert (Hlt' : n_test <= length y) by lia.
  destruct (iloc_split y _ n_test Hperm' Hlt')
    as [yte [ytr [Eyte [Eytr _]]]].
  rewrite <- Hlen in Eytr.
  exists (mkSplit Xtr Xte ytr yte). split.
  - unfold train_test_split. rewrite <- Hlen, Nat.eqb_refl. simpl negb. cbv iota.
    rewrite Hv. simpl bind. cbv beta. simpl fst. simpl snd. fold n_test. fold rng.
    rewrite EXtr. simpl bind. rewrite EXte. simpl bind.
    rewrite Eytr. simpl bind. rewrite Eyte. reflexivity.
  - unfold partitions. simpl. split; [|split; [exact HpX|split; lia]].
    assert (Hnd' : NoDup (index Xtr ++ index Xte)).
    { unfold index. rewrite <- map_app.
      apply (Permutation_NoDup (l := map fst X)); [|exact Hnd].
      apply Permutation_map. symmetry. exact HpX. }
    intros i Htr. exact (NoDup_app_disjoint _ _ i Hnd' Htr).
Qed.

(** C4, as amended.  When the merged table has at least two rows, the split
    with [test_size=0.2] succeeds; no index label is in both parts, the two
    parts together are exactly the rows of the table
    ([|train| + |test| = |merged|]), and the test part has [ceil(0.2 * n)] rows. *)
Theorem split_partitions_merged_table (w : World)
    (parse_date : string -> option Timestamp) (gfile : list GRaw) (hfile : list HRaw)
    (X : DataFrame XRow) (y : DataFrame (option Q)) :
  prepare parse_date gfile hfile = Some (X, y) ->
  2 <= length (merged_data parse_date gfile hfile) ->
  exists s,
    split_with w X y test_size (Some seed) = Some s /\
    partitions X s /\
    length X = length (merged_data parse_date gfile hfile).
Proof.
  intros Hprep Hn.
  destruct (index_prepare _ _ _ _ _ Hprep) as [Hidx [HlX Hly]].
  destruct (train_test_split_partitions w X y (Some seed)) as [s [Hs Hp]].
  - congruence.
  - rewrite Hidx. apply seq_NoDup.
  - lia.
  - exists s. repeat split; try exact Hs; try apply Hp. exact HlX.
Qed.

End ScriptFacts.

(** ** Instances on the sample data *)

Lemma example_permutation_spec (rng : bool) (n : nat) :
  Permutation (example_permutation rng n) (seq 0 n).
Proof.
  destruct rng; simpl; [reflexivity|]. symmetry. apply Permutation_rev.
Qed.

Lemma split_partitions_merged_table_witness :
  exists X y s,
    prepare example_parse_date [g_landfill; g_recycle] [h_recycle] = Some (X, y) /\
    2 <= length (merged_data example_parse_date [g_landfill; g_recycle] [h_recycle]) /\
    train_test_split bool bool (fun _ => false) (fun b => b) example_permutation
                     true X y test_size (Some seed) = Some s /\
    partitions X s.
Proof.
  destruct (split_partitions_merged_table bool bool (fun _ => false) (fun b => b)
              example_permutation example_permutation_spec true
              example_parse_date [g_landfill; g_recycle] [h_recycle] _ _ eq_refl)
    as [s [Hs [Hp _]]].
  - vm_compute. repeat constructor.
  - eexists. eexists. exists s. split; [reflexivity|]. split.
    + vm_compute. repeat constructor.
    + split; [exact Hs|exact Hp].
Defined.

(** With a single merged row the split raises for every generator: the
    training part would be empty. *)
Lemma split_of_one_row_fails :
  exists X y,
    prepare example_parse_date [] [h_recycle] = Some (X, y) /\
    length X = 1 /\
    forall (World RandomState : Type) (seeded : Z -> RandomState)
           (global_state : World -> RandomState)
           (permutation : RandomState -> nat -> list nat) (w : World),
      train_test_split World RandomState seeded global_state permutation
                       w X y test_size (Some seed) = None.
Proof.
  eexists. eexists. split; [reflexivity|]. split; [reflexivity|].
  intros. reflexivity.
Qed.

(** Without a seed the split would follow the environment's generator. *)
Lemma unseeded_split_depends_on_environment :
  exists X y,
    prepare example_parse_date [g_landfill; g_recycle] [h_recycle] = Some (X, y) /\
    train_test_split bool bool (fun _ => false) (fun b => b) example_permutation
                     true X y test_size None <>
    train_test_split bool bool (fun _ => false) (fun b => b) example_permutation
                     false X y test_size None.
Proof.
  eexists. eexists. split; [reflexivity|]. vm_compute. discriminate.
Qed.


(** The sample run of Linear.py completes with a split and an error value. *)
Lemma example_run_completes :
  exists s mse,
    Linear_main bool bool (fun _ => false) (fun b => b) example_permutation
                example_estimator example_parse_date true
                [g_landfill; g_bad_date; g_recycle] [h_recycle] = Some (s, mse).
Proof.
  eexists. eexists. vm_compute. reflexivity.
Qed.

(** * Further properties of the pipeline *)

(** ** Imputation is idempotent *)

Lemma Qsum_app (l1 l2 : list Q) : (Qsum (l1 ++ l2) == Qsum l1 + Qsum l2)%Q.
Proof.
  induction l1 as [|a l1 IH]; simpl.
  - ring.
  - rewrite IH. ring.
Qed.

(** A column obtained from [col] by putting a value [q] into some of its
    null cells: it has [k] more values, and its sum grows by [k * q]. *)
Lemma present_of_partly_filled (q : Q) (col col' : list (option Q)) :
  Forall2 (fun c c' => c' = c \/ (c = None /\ c' = Some q)) col col' ->
  exists k : nat,
    length (present col') = length (present col) + k /\
    (Qsum (present col') == Qsum (present col) + inject_Z (Z.of_nat k) * q)%Q.
Proof.
  induction 1 as [|c c' col col' Hc _ IH].
  - exists 0. split; [reflexivity|]. simpl. ring.
  - destruct IH as [k [Hlen Hsum]].
    destruct Hc as [->|[-> ->]].
    + exists k. destruct c as [v|]; simpl.
      * split; [lia|]. rewrite Hsum. ring.
      * split; [exact Hlen|exact Hsum].
    + exists (S k). split; [simpl; lia|].
      change (present (Some q :: col')) with (q :: present col').
      change (present (None :: col)) with (present col).
      change (Qsum (q :: present col')) with (q + Qsum (present col'))%Q.
      rewrite Hsum, Nat2Z.inj_succ. unfold Z.succ. rewrite inject_Z_plus. ring.
Qed.

Lemma mean_column_all_None (col : list (option Q)) :
  mean_column col = None -> Forall (fun c => c = None) col.
Proof.
  intros Hm. apply Forall_forall. intros [v|] Hin; [|reflexivity].
  exfalso. exact (mean_column_Some col v Hin Hm).
Qed.

Lemma mean_column_eq (col : list (option Q)) :
  present col <> [] ->
  mean_column col =
  Some (Qred (Qsum (present col) / inject_Z (Z.of_nat (length (present col))))).
Proof.
  unfold mean_column. destruct (present col); [congruence|reflexivity].
Qed.

(** Filling any of the nulls of a column with the column's mean leaves the
    mean where it was. *)
Lemma mean_column_partly_filled (col col' : list (option Q)) :
  Forall2 (fun c c' => c' = c \/ (c = None /\ c' = mean_column col)) col col' ->
  mean_column col' = mean_column col.
Proof.
  intros Hfill. destruct (mean_column col) as [m|] eqn:Hm.
  - destruct (present_of_partly_filled m col col' Hfill) as [k [Hlen Hsum]].
    destruct (mean_column_value col m Hm) as [Hne Hmeq].
    assert (Hpos : 0 < length (present col))
      by (destruct (present col); [congruence|simpl; lia]).
    assert (Hne' : present col' <> [])
      by (destruct (present col'); [simpl in Hlen; lia|discriminate]).
    assert (Hm' : m = Qred (Qsum (present col) /
                            inject_Z (Z.of_nat (length (present col)))))
      by (rewrite (mean_column_eq col Hne) in Hm; congruence).
    rewrite (mean_column_eq col' Hne'), Hm' at 1. f_equal.
    apply Qred_complete.
    set (n := length (present col)) in *.
    assert (Hn : ~ (inject_Z (Z.of_nat n) == 0)%Q)
      by (unfold Qeq; simpl; lia).
    assert (Hnk : ~ (inject_Z (Z.of_nat n) + inject_Z (Z.of_nat k) == 0)%Q)
      by (rewrite <- inject_Z_plus, <- Nat2Z.inj_add; unfold Qeq; simpl; lia).
    rewrite Hsum, Hlen, Nat2Z.inj_add, inject_Z_plus, Hmeq.
    field. split; assumption.
  - assert (Hall : Forall (fun c => c = None) col') .
    { pose proof (mean_column_all_None col Hm) as Hnone.
      clear Hm. induction Hfill as [|c c' col col' Hc _ IH]; constructor.
      - inversion Hnone; subst. destruct Hc as [->|[_ ->]]; reflexivity.
      - apply IH. inversion Hnone; assumption. }
    apply mean_column_all_null. exact Hall.
Qed.

Lemma length_fill_row (r : XRow) (means : list (option Q)) :
  length (fill_row r means) = length r.
Proof.
  revert means. induction r as [|c r IH]; intros [|m means]; simpl; auto.
Qed.

(** Cell by cell, [fillna] either keeps a cell or puts the column's fill
    value into a null cell. *)
Lemma xcolumn_fillna (j : nat) (X : DataFrame XRow) (means : list (option Q)) :
  Forall2 (fun c c' => c' = c \/ (c = None /\ c' = nth j means None))
          (xcolumn j X) (xcolumn j (fillna X means)).
Proof.
  unfold xcolumn. rewrite rows_fillna, map_map.
  induction (rows X) as [|r rs IH]; simpl; constructor; [|exact IH].
  destruct (Nat.lt_ge_cases j (length r)) as [Hlt|Hge].
  - rewrite nth_fill_row by exact Hlt.
    destruct (nth j r None) as [v|]; simpl; [left; reflexivity|].
    right. split; reflexivity.
  - left. rewrite !nth_overflow; [reflexivity|exact Hge|].
    rewrite length_fill_row. exact Hge.
Qed.

Lemma fill_row_twice (r : XRow) (means : list (option Q)) :
  fill_row (fill_row r means) means = fill_row r means.
Proof.
  revert means. induction r as [|c r IH]; intros [|m means]; simpl; auto.
  rewrite IH. destruct c, m; reflexivity.
Qed.

(** The mean of a column of the imputed matrix is the mean of that column
    before imputation. *)
Lemma mean_column_xcolumn_fillna (j ncols : nat) (X : DataFrame XRow) :
  j < ncols ->
  mean_column (xcolumn j (fillna X (mean ncols X))) = mean_column (xcolumn j X).
Proof.
  intros Hj. apply mean_column_partly_filled.
  rewrite <- (nth_mean j ncols X) by exact Hj.
  apply xcolumn_fillna.
Qed.

(** X2.  Imputing an imputed matrix again changes nothing. *)
Theorem imputation_is_idempotent (ncols : nat) (X : DataFrame XRow) :
  let X' := fillna X (mean ncols X) in
  fillna X' (mean ncols X') = X'.
Proof.
  intros X'.
  assert (Hmean : mean ncols X' = mean ncols X).
  { unfold mean at 1 2. apply map_ext_in. intros j Hj.
    apply in_seq in Hj. apply mean_column_xcolumn_fillna. lia. }
  rewrite Hmean. unfold X', fillna, map_rows. rewrite map_map. apply map_ext.
  intros [i r]. simpl. rewrite fill_row_twice. reflexivity.
Qed.

(** ** The encoding loses nothing within a table *)

(** X3.  Within one column, two cells receive the same code exactly when they
    hold the same value (or are both missing). *)
Theorem cat_codes_injective (col : list (option string)) (i j : nat)
    (ci cj : option string) :
  nth_error col i = Some ci ->
  nth_error col j = Some cj ->
  (nth_error (cat_codes col) i = nth_error (cat_codes col) j <-> ci = cj).
Proof.
  intros Hi Hj. unfold cat_codes. rewrite !nth_error_map, Hi, Hj. simpl.
  split; [|intros ->; reflexivity].
  intros E. injection E as E.
  destruct ci as [si|], cj as [sj|]; simpl in E; try lia; [|reflexivity].
  apply Nat2Z.inj in E.
  assert (Hsi : In si (categories col))
    by (apply categories_In; eapply nth_error_In; exact Hi).
  assert (Hsj : In sj (categories col))
    by (apply categories_In; eapply nth_error_In; exact Hj).
  destruct (position_In si _ Hsi) as [_ Ei].
  destruct (position_In sj _ Hsj) as [_ Ej].
  rewrite E in Ei. congruence.
Qed.

Lemma cat_codes_injective_witness :
  nth_error [Some "Recycle"; None; Some "Landfill"; Some "Recycle"] 0 = Some (Some "Recycle") /\
  nth_error [Some "Recycle"; None; Some "Landfill"; Some "Recycle"] 3 = Some (Some "Recycle") /\
  (nth_error (cat_codes [Some "Recycle"; None; Some "Landfill"; Some "Recycle"]) 0 =
   nth_error (cat_codes [Some "Recycle"; None; Some "Landfill"; Some "Recycle"]) 3 <->
   Some "Recycle" = Some "Recycle").
Proof.
  split; [reflexivity|]. split; [reflexivity|].
  apply (cat_codes_injective
           [Some "Recycle"; None; Some "Landfill"; Some "Recycle"] 0 3);
    reflexivity.
Defined.

(** ** What the merge and the imputation do to the categorical features *)

Lemma present_app {A} (l1 l2 : list (option A)) :
  present (l1 ++ l2) = present l1 ++ present l2.
Proof.
  induction l1 as [|[a|] l1 IH]; simpl; [reflexivity| |exact IH].
  rewrite IH. reflexivity.
Qed.

Lemma present_map_None {A B} (l : list B) :
  present (map (fun _ => @None A) l) = [].
Proof. induction l; simpl; auto. Qed.

Lemma present_map_Some {A B} (f : B -> A) (l : list B) :
  present (map (fun b => Some (f b)) l) = map f l.
Proof. induction l as [|b l IH]; simpl; [reflexivity|]. rewrite IH. reflexivity. Qed.

Lemma mean_column_app_None_r {B} (col : list (option Q)) (l : list B) :
  mean_column (col ++ map (fun _ => None) l) = mean_column col.
Proof.
  unfold mean_column. rewrite present_app, present_map_None, app_nil_r. reflexivity.
Qed.

Lemma mean_column_app_None_l {B} (col : list (option Q)) (l : list B) :
  mean_column (map (fun _ => None) l ++ col) = mean_column col.
Proof.
  unfold mean_column. rewrite present_app, present_map_None. reflexivity.
Qed.

Lemma map_const_repeat {A B} (b : B) (l : list A) :
  map (fun _ => b) l = repeat b (length l).
Proof. induction l as [|a l IH]; simpl; [reflexivity|]. rewrite IH. reflexivity. Qed.

(** X4.  In the imputed feature matrix the [recyclable] cell of every
    hazardous-table row is one constant, the mean of the general table's
    [recyclable] codes, and the [hazardous] cell of every general-table row
    is the mean of the hazardous table's [hazardous] codes; the rows' own
    codes stay as they are. *)
Theorem other_table_category_is_mean_filled
    (parse_date : string -> option Timestamp) (gfile : list GRaw) (hfile : list HRaw) :
  let gcodes := map (fun r => of_code (G.recyclable r)) (cleaned_g parse_date gfile) in
  let hcodes := map (fun r => of_code (H.hazardous r)) (cleaned_h parse_date hfile) in
  exists X y,
    prepare parse_date gfile hfile = Some (X, y) /\
    xcolumn 3 X = gcodes ++ repeat (mean_column gcodes) (length hcodes) /\
    xcolumn 4 X = repeat (mean_column hcodes) (length gcodes) ++ hcodes.
Proof.
  intros gcodes hcodes.
  eexists. eexists. split; [apply prepare_eq|].
  rewrite (xcolumn_fillna_mean _ 3 recyclable eq_refl).
  rewrite (xcolumn_fillna_mean _ 4 hazardous eq_refl).
  rewrite (merged_data_eq parse_date gfile hfile), rows_range_index.
  rewrite !map_app, !map_map. simpl.
  unfold impute_with_column_mean, gcodes, hcodes.
  rewrite mean_column_app_None_r, mean_column_app_None_l.
  rewrite !map_app, !map_map, !length_map. simpl.
  split; f_equal; apply map_const_repeat.
Qed.

(** ** The prepared matrix and target, row by row *)

(** The rows of [X] and [y] in terms of the cleaned records. *)
Lemma prepare_rows (parse_date : string -> option Timestamp)
    (gfile : list GRaw) (hfile : list HRaw) :
  exists X y means,
    prepare parse_date gfile hfile = Some (X, y) /\
    rows X = map (fun r => fill_row (feature_row (of_gdata r)) means)
                 (cleaned_g parse_date gfile) ++
             map (fun r => fill_row (feature_row (of_hdata r)) means)
                 (cleaned_h parse_date hfile) /\
    rows y = map G.predicted_waste_next_day (cleaned_g parse_date gfile) ++
             map H.predicted_waste_next_day (cleaned_h parse_date hfile) /\
    index X = index y.
Proof.
  eexists. eexists.
  exists (mean (length features)
               (map_rows feature_row (merged_data parse_date gfile hfile))).
  split; [apply prepare_eq|].
  set (means := mean _ _).
  rewrite (merged_data_eq parse_date gfile hfile).
  split; [|split].
  - rewrite rows_fillna, rows_map_rows, rows_range_index.
    rewrite !map_app, !map_map. reflexivity.
  - rewrite rows_map_rows, rows_range_index, !map_app, !map_map. reflexivity.
  - unfold fillna. rewrite !index_map_rows. reflexivity.
Qed.

Lemma cleaned_g_target (parse_date : string -> option Timestamp) (gfile : list GRaw) :
  Forall (fun r => G.predicted_waste_next_day r <> None) (cleaned_g parse_date gfile).
Proof.
  unfold cleaned_g. apply Forall_map, Forall_forall. intros r Hr.
  apply filter_In in Hr. destruct Hr as [_ Hk]. unfold kept_g in Hk.
  apply andb_true_iff in Hk. simpl. apply notnull_true. apply Hk.
Qed.

Lemma cleaned_h_target (parse_date : string -> option Timestamp) (hfile : list HRaw) :
  Forall (fun r => H.predicted_waste_next_day r <> None) (cleaned_h parse_date hfile).
Proof.
  unfold cleaned_h. apply Forall_map, Forall_forall. intros r Hr.
  apply filter_In in Hr. destruct Hr as [_ Hk]. unfold kept_h in Hk.
  apply andb_true_iff in Hk. simpl. apply notnull_true. apply Hk.
Qed.

(** X5.  The target vector [y] needs no imputation: it has no null, and it
    carries the same index labels as the feature matrix, row for row. *)
Theorem target_vector_is_complete_and_aligned
    (parse_date : string -> option Timestamp) (gfile : list GRaw) (hfile : list HRaw) :
  exists X y,
    prepare parse_date gfile hfile = Some (X, y) /\
    Forall (fun c => c <> None) (rows y) /\
    index y = index X /\
    index X = seq 0 (length (cleaned_g parse_date gfile) +
                     length (cleaned_h parse_date hfile)).
Proof.
  destruct (prepare_rows parse_date gfile hfile) as [X [y [means [Hp [_ [Hy Hidx]]]]]].
  exists X, y. split; [exact Hp|]. split; [|split; [symmetry; exact Hidx|]].
  - rewrite Hy. apply Forall_app. split; apply Forall_map.
    + apply cleaned_g_target.
    + apply cleaned_h_target.
  - destruct (index_prepare _ _ _ _ _ Hp) as [Hseq _]. rewrite Hseq.
    rewrite (merged_data_eq parse_date gfile hfile), length_range_index,
      length_app, !length_map. reflexivity.
Qed.

(** X6.  A numeric feature value that is present in a kept record reaches the
    feature matrix unchanged, through cleaning, merging and imputation. *)
Theorem present_feature_values_are_kept
    (parse_date : string -> option Timestamp) (gfile : list GRaw) (hfile : list HRaw) :
  let kept_gs := filter (kept_g parse_date) gfile in
  let kept_hs := filter (kept_h parse_date) hfile in
  exists X y,
    prepare parse_date gfile hfile = Some (X, y) /\
    (forall i r, nth_error kept_gs i = Some r ->
       exists x, nth_error (rows X) i = Some x /\
         (forall v, G.weight_kg r = Some v -> nth 0 x None = Some v) /\
         (forall v, G.cost_per_kg r = Some v -> nth 1 x None = Some v) /\
         (forall v, G.storage_duration_days r = Some v -> nth 5 x None = Some v)) /\
    (forall i r, nth_error kept_hs i = Some r ->
       exists x, nth_error (rows X) (length kept_gs + i) = Some x /\
         (forall v, H.weight_kg r = Some v -> nth 0 x None = Some v) /\
         (forall v, H.cost_per_kg r = Some v -> nth 1 x None = Some v) /\
         (forall v, H.storage_duration_days r = Some v -> nth 5 x None = Some v)).
Proof.
  intros kept_gs kept_hs.
  destruct (prepare_rows parse_date gfile hfile) as [X [y [means [Hp [HX _]]]]].
  exists X, y. split; [exact Hp|].
  assert (Hlg : length (cleaned_g parse_date gfile) = length kept_gs)
    by apply length_map.
  rewrite HX. split.
  - intros i r Hi. eexists. split.
    + rewrite nth_error_app1 by
        (rewrite length_map, Hlg; apply nth_error_Some; congruence).
      unfold cleaned_g. fold kept_gs. rewrite map_map, nth_error_map, Hi.
      reflexivity.
    + repeat split; intros v Hv.
      * apply (nth_fill_row_value 0 weight_kg); [reflexivity|exact Hv].
      * apply (nth_fill_row_value 1 cost_per_kg); [reflexivity|exact Hv].
      * apply (nth_fill_row_value 5 storage_duration_days); [reflexivity|exact Hv].
  - intros i r Hi. eexists. split.
    + rewrite nth_error_app2 by (rewrite length_map, Hlg; lia).
      rewrite length_map, Hlg.
      replace (length kept_gs + i - length kept_gs) with i by lia.
      unfold cleaned_h. fold kept_hs. rewrite map_map, nth_error_map, Hi.
      reflexivity.
    + repeat split; intros v Hv.
      * apply (nth_fill_row_value 0 weight_kg); [reflexivity|exact Hv].
      * apply (nth_fill_row_value 1 cost_per_kg); [reflexivity|exact Hv].
      * apply (nth_fill_row_value 5 storage_duration_days); [reflexivity|exact Hv].
Qed.

(** ** Index labels through the cleaner *)

Lemma frame_ext {R} (a b : DataFrame R) :
  index a = index b -> rows a = rows b -> a = b.
Proof.
  unfold index, rows. revert b.
  induction a as [|[i r] a IH]; intros [|[j s] b] Hi Hr; simpl in *;
    try discriminate; [reflexivity|].
  injection Hi as -> Hi. injection Hr as -> Hr. f_equal. apply IH; assumption.
Qed.

Lemma dropna_map_rows {R S A} (col : S -> option A) (f : R -> S) (df : DataFrame R) :
  dropna col (map_rows f df) =
  map_rows f (filter (fun ir => notnull (col (f (snd ir)))) df).
Proof.
  unfold dropna, map_rows.
  induction df as [|[i r] df IH]; simpl; [reflexivity|].
  destruct (notnull (col (f r))); simpl; rewrite IH; reflexivity.
Qed.

Lemma rows_filter {R} (p : R -> bool) (df : DataFrame R) :
  rows (filter (fun ir => p (snd ir)) df) = filter p (rows df).
Proof.
  unfold rows. induction df as [|[i r] df IH]; simpl; [reflexivity|].
  destruct (p r); simpl; rewrite IH; reflexivity.
Qed.

Lemma index_clean_gdata (parse_date : string -> option Timestamp)
    (gdata : DataFrame GRaw) :
  index (clean_gdata parse_date gdata) =
  index (filter (fun ir => kept_g parse_date (snd ir)) gdata).
Proof.
  unfold clean_gdata, to_datetime, cat_codes, GRaw in *. cbv zeta.
  rewrite (assign_column G.set_generated_date G.generated_date (coerce parse_date) gdata).
  rewrite !dropna_map_rows, filter_filter.
  set (d3 := map_rows _ (filter _ gdata)).
  rewrite (assign_column G.set_disposal_method G.disposal_method _ d3).
  rewrite (assign_column G.set_recyclable G.recyclable _ (map_rows _ d3)).
  rewrite !index_map_rows. unfold d3. rewrite index_map_rows. reflexivity.
Qed.

Lemma index_clean_hdata (parse_date : string -> option Timestamp)
    (hdata : DataFrame HRaw) :
  index (clean_hdata parse_date hdata) =
  index (filter (fun ir => kept_h parse_date (snd ir)) hdata).
Proof.
  unfold clean_hdata, to_datetime, cat_codes, HRaw in *. cbv zeta.
  rewrite (assign_column H.set_generated_date H.generated_date (coerce parse_date) hdata).
  rewrite !dropna_map_rows, filter_filter.
  set (d3 := map_rows _ (filter _ hdata)).
  rewrite (assign_column H.set_disposal_method H.disposal_method _ d3).
  rewrite (assign_column H.set_hazardous H.hazardous _ (map_rows _ d3)).
  rewrite !index_map_rows. unfold d3. rewrite index_map_rows. reflexivity.
Qed.

(** A labelled row of a fresh index is the record at that position. *)
Lemma In_combine_seq {R} (l : list R) (a i : nat) (r : R) :
  In (i, r) (combine (seq a (length l)) l) <-> a <= i /\ nth_error l (i - a) = Some r.
Proof.
  revert a. induction l as [|x l IH]; intros a; simpl.
  - split; [contradiction|]. intros [_ E]. destruct (i - a); discriminate.
  - rewrite IH. split.
    + intros [E|[Hle Hn]].
      * injection E as <- <-. rewrite Nat.sub_diag. split; [lia|reflexivity].
      * split; [lia|]. replace (i - a) with (S (i - S a)) by lia. exact Hn.
    + intros [Hle Hn]. destruct (Nat.eq_dec a i) as [<-|Hne].
      * rewrite Nat.sub_diag in Hn. left. simpl in Hn. congruence.
      * right. split; [lia|].
        replace (i - a) with (S (i - S a)) in Hn by lia. exact Hn.
Qed.

Lemma StronglySorted_seq (a n : nat) : StronglySorted lt (seq a n).
Proof.
  revert a. induction n as [|n IH]; intros a; simpl; constructor; [apply IH|].
  apply Forall_forall. intros x Hx. apply in_seq in Hx. lia.
Qed.

Lemma StronglySorted_index_filter {R} (p : nat * R -> bool) (df : DataFrame R) :
  StronglySorted lt (index df) -> StronglySorted lt (index (filter p df)).
Proof.
  unfold index. induction df as [|[i r] df IH]; simpl; intros Hs; [constructor|].
  inversion Hs as [|? ? Hs' Hall]; subst.
  destruct (p (i, r)); simpl; [|apply IH; exact Hs'].
  constructor; [apply IH; exact Hs'|].
  rewrite Forall_forall in *. intros x Hx. apply Hall.
  apply in_map_iff in Hx. destruct Hx as [[j s] [<- Hx]].
  apply filter_In in Hx. apply in_map_iff. exists (j, s). split; [reflexivity|apply Hx].
Qed.

(** The labelled rows of a filtered and rewritten fresh table. *)
Lemma In_map_rows_filter_range {R S} (f : R -> S) (p : R -> bool) (l : list R)
    (i : nat) (s : S) :
  In (i, s) (map_rows f (filter (fun ir => p (snd ir)) (range_index l))) <->
  exists r, nth_error l i = Some r /\ p r = true /\ s = f r.
Proof.
  unfold map_rows, range_index. rewrite in_map_iff. split.
  - intros [[j r] [E Hin]]. injection E as <- <-. simpl.
    apply filter_In in Hin. destruct Hin as [Hin Hp].
    apply In_combine_seq in Hin. destruct Hin as [_ Hn].
    rewrite Nat.sub_0_r in Hn. exists r. auto.
  - intros [r [Hn [Hp ->]]]. exists (i, r). split; [reflexivity|].
    apply filter_In. split; [|exact Hp].
    apply In_combine_seq. rewrite Nat.sub_0_r. split; [lia|exact Hn].
Qed.

(** X7.  A cleaned row keeps as its index label the position its record had
    in the file: the labels of the cleaned general table increase strictly,
    and label [i] carries exactly the encoding of the kept record number [i]. *)
Theorem cleaned_rows_keep_their_file_position
    (parse_date : string -> option Timestamp) (gfile : list GRaw) :
  let kept := filter (kept_g parse_date) gfile in
  let encode := encode_g parse_date (categories (map G.disposal_method kept))
                                    (categories (map G.recyclable kept)) in
  let cleaned := clean_gdata parse_date (read_csv gfile) in
  StronglySorted lt (index cleaned) /\
  forall i r,
    In (i, r) cleaned <->
    exists raw, nth_error gfile i = Some raw /\
                kept_g parse_date raw = true /\ r = encode raw.
Proof.
  intros kept encode cleaned.
  assert (E : cleaned =
              map_rows encode
                (filter (fun ir => kept_g parse_date (snd ir)) (range_index gfile))).
  { apply frame_ext.
    - unfold cleaned, read_csv. rewrite index_clean_gdata, index_map_rows. reflexivity.
    - unfold cleaned, read_csv.
      rewrite rows_clean_gdata, rows_map_rows, rows_filter, rows_range_index.
      reflexivity. }
  rewrite E. split.
  - rewrite index_map_rows. apply StronglySorted_index_filter.
    rewrite index_range_index. apply StronglySorted_seq.
  - intros i r. apply In_map_rows_filter_range.
Qed.

(** X8.  The same for the hazardous table. *)
Theorem cleaned_hazardous_rows_keep_their_file_position
    (parse_date : string -> option Timestamp) (hfile : list HRaw) :
  let kept := filter (kept_h parse_date) hfile in
  let encode := encode_h parse_date (categories (map H.disposal_method kept))
                                    (categories (map H.hazardous kept)) in
  let cleaned := clean_hdata parse_date (read_csv hfile) in
  StronglySorted lt (index cleaned) /\
  forall i r,
    In (i, r) cleaned <->
    exists raw, nth_error hfile i = Some raw /\
                kept_h parse_date raw = true /\ r = encode raw.
Proof.
  intros kept encode cleaned.
  assert (E : cleaned =
              map_rows encode
                (filter (fun ir => kept_h parse_date (snd ir)) (range_index hfile))).
  { apply frame_ext.
    - unfold cleaned, read_csv. rewrite index_clean_hdata, index_map_rows. reflexivity.
    - unfold cleaned, read_csv.
      rewrite rows_clean_hdata, rows_map_rows, rows_filter, rows_range_index.
      reflexivity. }
  rewrite E. split.
  - rewrite index_map_rows. apply StronglySorted_index_filter.
    rewrite index_range_index. apply StronglySorted_seq.
  - intros i r. apply In_map_rows_filter_range.
Qed.

(** ** The error measure *)

Lemma Qsum_nonneg (l : list Q) : Forall (fun q => (0 <= q)%Q) l -> (0 <= Qsum l)%Q.
Proof.
  induction 1 as [|q l Hq _ IH]; simpl.
  - apply Qle_refl.
  - replace 0%Q with (0 + 0)%Q by reflexivity. apply Qplus_le_compat; assumption.
Qed.

Lemma Qsquare_nonneg (q : Q) : (0 <= q * q)%Q.
Proof.
  destruct (Qlt_le_dec q 0) as [Hneg|Hpos].
  - setoid_replace (q * q)%Q with ((- q) * (- q))%Q by ring.
    apply Qmult_le_0_compat; apply (Qopp_le_compat q 0); apply Qlt_le_weak; exact Hneg.
  - apply Qmult_le_0_compat; exact Hpos.
Qed.

(** What [squared_errors] returns, and when. *)
Lemma squared_errors_Some (y_true : list (option Q)) (y_pred es : list Q) :
  squared_errors y_true y_pred = Some es ->
  length y_true = length y_pred /\
  length es = length y_pred /\
  Forall (fun c => c <> None) y_true /\
  Forall (fun e => (0 <= e)%Q) es.
Proof.
  revert y_pred es. induction y_true as [|[t|] y_true IH]; intros [|p y_pred] es E;
    simpl in E; try discriminate.
  - injection E as <-. repeat split; constructor.
  - destruct (squared_errors y_true y_pred) as [es'|] eqn:E'; simpl in E;
      [|discriminate].
    injection E as <-. destruct (IH _ _ E') as [H1 [H2 [H3 H4]]].
    simpl. repeat split; try (f_equal; assumption).
    + constructor; [discriminate|exact H3].
    + constructor; [apply Qsquare_nonneg|exact H4].
Qed.

Lemma mean_squared_error_Some (y_true : list (option Q)) (y_pred : list Q) (m : Q) :
  mean_squared_error y_true y_pred = Some m ->
  (0 <= m)%Q /\ y_pred <> [] /\ length y_true = length y_pred /\
  Forall (fun c => c <> None) y_true.
Proof.
  intros E. unfold mean_squared_error, bind in E.
  destruct (squared_errors y_true y_pred) as [es|] eqn:Ees; [|discriminate].
  destruct (squared_errors_Some _ _ _ Ees) as [H1 [H2 [H3 H4]]].
  destruct es as [|e es]; [discriminate|].
  set (n := length (e :: es)) in *.
  assert (Hm : m = Qred (Qsum (e :: es) / inject_Z (Z.of_nat n))) by congruence.
  split; [|split; [|split; assumption]].
  - rewrite Hm, Qred_correct.
    apply Qle_shift_div_l.
    + unfold Qlt, n. simpl. lia.
    + rewrite Qmult_0_l. apply Qsum_nonneg. exact H4.
  - intros ->. simpl in H2. discriminate.
Qed.

(** X9.  When [mean_squared_error] returns a value, that value is not
    negative, and the two vectors were non-empty, of equal length and the
    targets free of nulls; on every such input it does return a value. *)
Theorem mean_squared_error_defined_and_nonnegative
    (y_true : list (option Q)) (y_pred : list Q) :
  (forall m, mean_squared_error y_true y_pred = Some m ->
             (0 <= m)%Q /\ y_pred <> [] /\ length y_true = length y_pred /\
             Forall (fun c => c <> None) y_true) /\
  (y_pred <> [] -> length y_true = length y_pred ->
   Forall (fun c => c <> None) y_true ->
   exists m, mean_squared_error y_true y_pred = Some m).
Proof.
  split.
  - intros m. apply mean_squared_error_Some.
  - intros Hne Hlen Hall.
    assert (Hes : exists es, squared_errors y_true y_pred = Some es).
    { clear Hne. revert y_pred Hlen.
      induction Hall as [|c y_true Hc _ IH]; intros [|p y_pred] Hlen;
        simpl in Hlen; try discriminate.
      - exists []. reflexivity.
      - destruct c as [t|]; [|congruence].
        destruct (IH y_pred) as [es Ees]; [lia|].
        simpl. rewrite Ees. simpl. eexists. reflexivity. }
    destruct Hes as [es Ees]. unfold mean_squared_error. rewrite Ees. simpl.
    destruct (squared_errors_Some _ _ _ Ees) as [_ [H2 _]].
    destruct es as [|e es]; [|eexists; reflexivity].
    destruct y_pred; [congruence|discriminate].
Qed.

Lemma mean_squared_error_defined_and_nonnegative_witness :
  [(2#1)%Q; (2#1)%Q] <> [] /\
  length [Some (1#1)%Q; Some (3#1)%Q] = length [(2#1)%Q; (2#1)%Q] /\
  Forall (fun c : option Q => c <> None) [Some (1#1)%Q; Some (3#1)%Q] /\
  exists m, mean_squared_error [Some (1#1)%Q; Some (3#1)%Q] [(2#1)%Q; (2#1)%Q] = Some m.
Proof.
  assert (H1 : [(2#1)%Q; (2#1)%Q] <> []) by discriminate.
  assert (H3 : Forall (fun c : option Q => c <> None) [Some (1#1)%Q; Some (3#1)%Q])
    by (repeat constructor; discriminate).
  split; [exact H1|]. split; [reflexivity|]. split; [exact H3|].
  exact (proj2 (mean_squared_error_defined_and_nonnegative
                  [Some (1#1)%Q; Some (3#1)%Q] [(2#1)%Q; (2#1)%Q]) H1 eq_refl H3).
Defined.

Lemma Qsum_zero (l : list Q) :
  Forall (fun q => (0 <= q)%Q) l ->
  ((Qsum l == 0)%Q <-> Forall (fun q => (q == 0)%Q) l).
Proof.
  induction 1 as [|q l Hq Hl IH]; simpl.
  - split; [constructor|reflexivity].
  - pose proof (Qsum_nonneg l Hl) as Hs. split.
    + intros E.
      assert (Hq0 : (q == 0)%Q).
      { apply Qle_antisym; [|exact Hq].
        rewrite <- E. rewrite <- (Qplus_0_r q) at 1.
        apply Qplus_le_compat; [apply Qle_refl|exact Hs]. }
      constructor; [exact Hq0|]. apply IH. rewrite Hq0, Qplus_0_l in E. exact E.
    + intros Hall. inversion Hall as [|? ? Hq0 Hl0]; subst.
      rewrite Hq0, Qplus_0_l. apply IH. exact Hl0.
Qed.

Lemma squared_errors_zero (y_true : list (option Q)) (y_pred es : list Q) :
  squared_errors y_true y_pred = Some es ->
  (Forall (fun e => (e == 0)%Q) es <->
   Forall2 (fun t p => exists v, t = Some v /\ (v == p)%Q) y_true y_pred).
Proof.
  revert y_pred es. induction y_true as [|[t|] y_true IH]; intros [|p y_pred] es E;
    simpl in E; try discriminate.
  - injection E as <-. split; constructor.
  - destruct (squared_errors y_true y_pred) as [es'|] eqn:E'; [|discriminate].
    unfold bind in E. injection E as <-. specialize (IH _ _ E'). split.
    + intros Hall. inversion Hall as [|? ? He Hes]; subst. constructor.
      * exists t. split; [reflexivity|].
        apply Qmult_integral in He.
        assert (Hd : (t - p == 0)%Q) by (destruct He; assumption).
        setoid_replace t with ((t - p) + p)%Q by ring. rewrite Hd. ring.
      * apply IH. exact Hes.
    + intros Hall. inversion Hall as [|? ? ? ? [v [Ev Hv]] Hrest]; subst.
      injection Ev as <-. constructor.
      * rewrite Hv. ring.
      * apply IH. exact Hrest.
Qed.

(** X10.  The mean squared error is zero exactly when every prediction
    equals its target. *)
Theorem mean_squared_error_zero_iff_exact
    (y_true : list (option Q)) (y_pred : list Q) (m : Q) :
  mean_squared_error y_true y_pred = Some m ->
  ((m == 0)%Q <->
   Forall2 (fun t p => exists v, t = Some v /\ (v == p)%Q) y_true y_pred).
Proof.
  intros E. unfold mean_squared_error, bind in E.
  destruct (squared_errors y_true y_pred) as [es|] eqn:Ees; [|discriminate].
  destruct (squared_errors_Some _ _ _ Ees) as [_ [_ [_ Hnn]]].
  rewrite <- (squared_errors_zero _ _ _ Ees), <- (Qsum_zero es Hnn).
  destruct es as [|e es]; [discriminate|].
  set (n := length (e :: es)) in *.
  assert (Hm : m = Qred (Qsum (e :: es) / inject_Z (Z.of_nat n))) by congruence.
  assert (Hn : ~ (inject_Z (Z.of_nat n) == 0)%Q)
    by (unfold Qeq, n; simpl; lia).
  rewrite Hm, Qred_correct. split; intros H0.
  - setoid_replace (Qsum (e :: es))
      with (Qsum (e :: es) / inject_Z (Z.of_nat n) * inject_Z (Z.of_nat n))%Q
      by (field; exact Hn).
    rewrite H0. ring.
  - rewrite H0. field. exact Hn.
Qed.

Lemma mean_squared_error_zero_iff_exact_witness :
  mean_squared_error [Some (1#1)%Q; Some (3#1)%Q] [(1#1)%Q; (3#1)%Q] = Some (0#1)%Q /\
  (((0#1) == 0)%Q <->
   Forall2 (fun t p => exists v, t = Some v /\ (v == p)%Q)
           [Some (1#1)%Q; Some (3#1)%Q] [(1#1)%Q; (3#1)%Q]).
Proof.
  split; [reflexivity|].
  apply (mean_squared_error_zero_iff_exact
           [Some (1#1)%Q; Some (3#1)%Q] [(1#1)%Q; (3#1)%Q] (0#1)%Q).
  reflexivity.
Defined.

(** ** The split and the model loop *)

(** Taking the same positions from two tables with the same labels gives
    parts with the same labels. *)
Lemma iloc_index {R S} (df : DataFrame R) (df' : DataFrame S) (ps : list nat)
    (rs : DataFrame R) (rs' : DataFrame S) :
  index df = index df' ->
  iloc df ps = Some rs -> iloc df' ps = Some rs' ->
  index rs = index rs'.
Proof.
  intros Hidx. revert rs rs'. induction ps as [|p ps IH]; intros rs rs' E E'; simpl in *.
  - injection E as <-. injection E' as <-. reflexivity.
  - destruct (nth_error df p) as [r|] eqn:Er; [|discriminate].
    destruct (nth_error df' p) as [r'|] eqn:Er'; [|discriminate].
    unfold bind in E, E'.
    destruct (iloc df ps) as [rs0|]; [|discriminate].
    destruct (iloc df' ps) as [rs0'|]; [|discriminate].
    injection E as <-. injection E' as <-. unfold index in *. simpl. f_equal.
    + apply (map_nth_error fst) in Er. apply (map_nth_error fst) in Er'.
      rewrite Hidx in Er. congruence.
    + apply IH; reflexivity.
Qed.

Lemma prepare_ext (p1 p2 : string -> option Timestamp)
    (gfile : list GRaw) (hfile : list HRaw) :
  (forall t, p1 t = p2 t) ->
  prepare p1 gfile hfile = prepare p2 gfile hfile.
Proof.
  intros Hext.
  assert (Hc : forall c, coerce p1 c = coerce p2 c)
    by (intros [t|]; simpl; auto).
  assert (Hg : cleaned_g p1 gfile = cleaned_g p2 gfile).
  { unfold cleaned_g.
    rewrite (filter_ext (kept_g p1) (kept_g p2))
      by (intros r; unfold kept_g; rewrite Hc; reflexivity).
    apply map_ext. intros r. unfold encode_g. rewrite Hc. reflexivity. }
  assert (Hh : cleaned_h p1 hfile = cleaned_h p2 hfile).
  { unfold cleaned_h.
    rewrite (filter_ext (kept_h p1) (kept_h p2))
      by (intros r; unfold kept_h; rewrite Hc; reflexivity).
    apply map_ext. intros r. unfold encode_h. rewrite Hc. reflexivity. }
  unfold prepare. rewrite (merged_data_eq p1 gfile hfile), (merged_data_eq p2 gfile hfile).
  rewrite Hg, Hh. reflexivity.
Qed.

Section LoopFacts.

Variable World : Type.
Variable RandomState : Type.
Variable seeded : Z -> RandomState.
Variable global_state : World -> RandomState.
Variable permutation : RandomState -> nat -> list nat.
Variable linear_regression :
  DataFrame XRow -> DataFrame (option Q) -> DataFrame XRow -> option (list Q).
Variable decision_tree :
  RandomState -> DataFrame XRow -> DataFrame (option Q) -> DataFrame XRow -> option (list Q).
Variable random_forest :
  RandomState -> DataFrame XRow -> DataFrame (option Q) -> DataFrame XRow -> option (list Q).
Variable parse_date_default : string -> option Timestamp.
Variable parse_date_mixed : string -> option Timestamp.

Local Abbreviation split_with :=
  (train_test_split World RandomState seeded global_state permutation).
Local Abbreviation run_Linear :=
  (Linear_main World RandomState seeded global_state permutation
     linear_regression parse_date_default).
Local Abbreviation run_app :=
  (app_main World RandomState seeded global_state permutation
     linear_regression decision_tree random_forest parse_date_mixed).
Local Abbreviation evaluate_with :=
  (evaluate World RandomState seeded global_state
     linear_regression decision_tree random_forest).

(** X11.  The split takes the same rows for the features and for the target:
    the training features and training targets carry the same index labels
    in the same order, and so do the test parts. *)
Theorem split_keeps_features_and_targets_aligned (w : World) (X : DataFrame XRow)
    (y : DataFrame (option Q)) (size : Q) (random_state : option Z) (s : Split) :
  index X = index y ->
  split_with w X y size random_state = Some s ->
  index (X_train s) = index (y_train s) /\
  index (X_test s) = index (y_test s).
Proof.
  intros Hidx E. unfold train_test_split in E.
  destruct (negb (length X =? length y)); [discriminate|].
  destruct (validate_shuffle_split (length X) size) as [[n_train n_test]|];
    [|discriminate].
  unfold bind in E. simpl fst in E. simpl snd in E.
  set (perm := permutation _ _) in E.
  destruct (iloc X (firstn n_train (skipn n_test perm))) as [Xtr|] eqn:EXtr;
    [|discriminate].
  destruct (iloc X (firstn n_test perm)) as [Xte|] eqn:EXte; [|discriminate].
  destruct (iloc y (firstn n_train (skipn n_test perm))) as [ytr|] eqn:Eytr;
    [|discriminate].
  destruct (iloc y (firstn n_test perm)) as [yte|] eqn:Eyte; [|discriminate].
  injection E as <-. simpl. split.
  - exact (iloc_index X y _ Xtr ytr Hidx EXtr Eytr).
  - exact (iloc_index X y _ Xte yte Hidx EXte Eyte).
Qed.

Lemma split_below_two_rows (w : World) (X : DataFrame XRow)
    (y : DataFrame (option Q)) (random_state : option Z) :
  length X < 2 -> split_with w X y test_size random_state = None.
Proof.
  intros Hn. unfold train_test_split.
  destruct (negb (length X =? length y)); [reflexivity|].
  rewrite (validate_shuffle_split_None _ Hn). reflexivity.
Qed.

(** X12.  When fewer than two rows survive the cleaning of both files, either
    script stops with an error at the split, before any model is fitted. *)
Theorem runs_abort_below_two_rows (w : World) (gfile : list GRaw) (hfile : list HRaw) :
  (length (merged_data parse_date_default gfile hfile) < 2 ->
   run_Linear w gfile hfile = None) /\
  (length (merged_data parse_date_mixed gfile hfile) < 2 ->
   run_app w gfile hfile = None).
Proof.
  split; intros Hn.
  - unfold Linear_main. rewrite prepare_eq. unfold bind. simpl fst. simpl snd.
    rewrite split_below_two_rows; [reflexivity|].
    unfold fillna, map_rows. rewrite !length_map. exact Hn.
  - unfold app_main. rewrite prepare_eq. unfold bind. simpl fst. simpl snd.
    rewrite split_below_two_rows; [reflexivity|].
    unfold fillna, map_rows. rewrite !length_map. exact Hn.
Qed.

(** The loop over the models: one result per model, under the model's name,
    in the order of the models, each with the error of its predictions. *)
Lemma evaluate_Some (w : World) (ms : list (string * Model)) (s : Split)
    (results : list (string * (list Q * Q))) :
  evaluate_with w ms s = Some results ->
  Forall2 (fun nm res =>
             fst res = fst nm /\
             fit_predict World RandomState seeded global_state
                         linear_regression decision_tree random_forest
                         w (snd nm) s = Some (fst (snd res)) /\
             mean_squared_error (rows (y_test s)) (fst (snd res)) =
             Some (snd (snd res)))
          ms results.
Proof.
  revert results. induction ms as [|[name m] ms IH]; intros results E; simpl in E.
  - injection E as <-. constructor.
  - unfold bind in E.
    destruct (fit_predict _ _ _ _ _ _ _ w m s) as [y_pred|] eqn:Ef; [|discriminate].
    destruct (mean_squared_error (rows (y_test s)) y_pred) as [mse|] eqn:Em;
      [|discriminate].
    destruct (evaluate_with w ms s) as [rest|] eqn:Er; [|discriminate].
    injection E as <-. constructor; [|apply IH; reflexivity].
    simpl. auto.
Qed.

Lemma evaluate_cons (w : World) (name : string) (m : Model)
    (ms : list (string * Model)) (s : Split) :
  evaluate_with w ((name, m) :: ms) s =
  (y_pred <- fit_predict World RandomState seeded global_state
                         linear_regression decision_tree random_forest w m s ;;
   mse <- mean_squared_error (rows (y_test s)) y_pred ;;
   results <- evaluate_with w ms s ;;
   Some ((name, (y_pred, mse)) :: results)).
Proof. reflexivity. Qed.

(** X13.  A completed run of app.py reports exactly three results, named
    "Linear Regression", "Decision Tree" and "Random Forest" in that order,
    each with a non-negative error measured on the same test targets. *)
Theorem app_reports_three_models (w : World) (gfile : list GRaw) (hfile : list HRaw)
    (s : Split) (results : list (string * (list Q * Q))) :
  run_app w gfile hfile = Some (s, results) ->
  map fst results = ["Linear Regression"; "Decision Tree"; "Random Forest"] /\
  Forall (fun res =>
            mean_squared_error (rows (y_test s)) (fst (snd res)) = Some (snd (snd res)) /\
            (0 <= snd (snd res))%Q /\
            length (fst (snd res)) = length (y_test s))
         results.
Proof.
  intros E. unfold app_main, bind in E.
  destruct (prepare parse_date_mixed gfile hfile) as [Xy|]; [|discriminate].
  destruct (split_with w (fst Xy) (snd Xy) test_size (Some seed)) as [s'|];
    [|discriminate].
  destruct (evaluate_with w models s') as [results'|] eqn:Ev; [|discriminate].
  injection E as <- <-.
  apply evaluate_Some in Ev. split.
  - assert (Hn : map fst results' = map fst models).
    { clear -Ev. induction Ev as [|nm res ms rs [Hname _] _ IH]; simpl;
        [reflexivity|]. rewrite Hname, IH. reflexivity. }
    rewrite Hn. reflexivity.
  - clear -Ev. induction Ev as [|nm res ms rs [_ [_ Hmse]] _ IH]; constructor;
      [|exact IH].
    destruct (mean_squared_error_Some _ _ _ Hmse) as [Hpos [_ [Hlen _]]].
    split; [exact Hmse|]. split; [exact Hpos|].
    rewrite <- Hlen. apply length_rows.
Qed.


End LoopFacts.

(** ** Instances of the split and loop properties on the sample data *)

Lemma split_keeps_features_and_targets_aligned_witness :
  exists X y s,
    prepare example_parse_date [g_landfill; g_recycle] [h_recycle] = Some (X, y) /\
    index X = index y /\
    train_test_split bool bool (fun _ => false) (fun b => b) example_permutation
                     true X y test_size (Some seed) = Some s /\
    index (X_train s) = index (y_train s) /\
    index (X_test s) = index (y_test s).
Proof.
  eexists. eexists. eexists.
  split; [reflexivity|].
  match goal with
  | |- index ?X0 = index ?y0 /\ _ => pose (X := X0); pose (y := y0)
  end.
  split; [reflexivity|].
  split; [vm_compute; reflexivity|].
  apply (split_keeps_features_and_targets_aligned
           bool bool (fun _ => false) (fun b => b) example_permutation
           true X y test_size (Some seed)).
  - reflexivity.
  - vm_compute. reflexivity.
Defined.

Lemma runs_abort_below_two_rows_witness :
  length (merged_data example_parse_date [g_bad_date] [h_recycle]) < 2 /\
  Linear_main bool bool (fun _ => false) (fun b => b) example_permutation
              example_estimator example_parse_date true
              [g_bad_date] [h_recycle] = None.
Proof.
  assert (Hn : length (merged_data example_parse_date [g_bad_date] [h_recycle]) < 2)
    by (vm_compute; repeat constructor).
  split; [exact Hn|].
  exact (proj1 (runs_abort_below_two_rows
                  bool bool (fun _ => false) (fun b => b) example_permutation
                  example_estimator (fun _ => example_estimator)
                  (fun _ => example_estimator)
                  example_parse_date example_parse_date
                  true [g_bad_date] [h_recycle]) Hn).
Defined.

Lemma app_reports_three_models_witness :
  exists s results,
    app_main bool bool (fun _ => false) (fun b => b) example_permutation
             example_estimator (fun _ => example_estimator)
             (fun _ => example_estimator) example_parse_date true
             [g_landfill; g_recycle] [h_recycle] = Some (s, results) /\
    map fst results = ["Linear Regression"; "Decision Tree"; "Random Forest"] /\
    Forall (fun res =>
              mean_squared_error (rows (y_test s)) (fst (snd res)) =
              Some (snd (snd res)) /\
              (0 <= snd (snd res))%Q /\
              length (fst (snd res)) = length (y_test s))
           results.
Proof.
  eexists. eexists. split; [vm_compute; reflexivity|].
  apply (app_reports_three_models
           bool bool (fun _ => false) (fun b => b) example_permutation
           example_estimator (fun _ => example_estimator)
           (fun _ => example_estimator) example_parse_date true
           [g_landfill; g_recycle] [h_recycle]).
  vm_compute. reflexivity.
Defined.


(** ** Presentation *)

Lemma fold_left_Qmin_le (vs : list Q) (v : Q) :
  (fold_left Qmin vs v <= v)%Q /\
  Forall (fun x => (fold_left Qmin vs v <= x)%Q) vs /\
  In (fold_left Qmin vs v) (v :: vs).
Proof.
  revert v. induction vs as [|x vs IH]; intros v; simpl.
  - split; [apply Qle_refl|]. split; [constructor|left; reflexivity].
  - destruct (IH (Qmin v x)) as [H1 [H2 H3]]. split; [|split].
    + eapply Qle_trans; [exact H1|apply Q.le_min_l].
    + constructor; [|exact H2].
      eapply Qle_trans; [exact H1|apply Q.le_min_r].
    + destruct H3 as [E|Hin]; [|right; right; exact Hin].
      rewrite <- E. unfold Qmin, GenericMinMax.gmin.
      destruct (v ?= x)%Q; auto.
Qed.

Lemma fold_left_Qmax_ge (vs : list Q) (v : Q) :
  (v <= fold_left Qmax vs v)%Q /\
  Forall (fun x => (x <= fold_left Qmax vs v)%Q) vs /\
  In (fold_left Qmax vs v) (v :: vs).
Proof.
  revert v. induction vs as [|x vs IH]; intros v; simpl.
  - split; [apply Qle_refl|]. split; [constructor|left; reflexivity].
  - destruct (IH (Qmax v x)) as [H1 [H2 H3]]. split; [|split].
    + eapply Qle_trans; [apply Q.le_max_l|exact H1].
    + constructor; [|exact H2].
      eapply Qle_trans; [apply Q.le_max_r|exact H1].
    + destruct H3 as [E|Hin]; [|right; right; exact Hin].
      rewrite <- E. unfold Qmax, GenericMinMax.gmax.
      destruct (v ?= x)%Q; auto.
Qed.

(** X15.  The "Ideal" reference line of a figure runs along the diagonal from
    the smallest to the largest actual test value: both ends are values that
    occur among the test targets, and every test target lies between them. *)
Theorem ideal_line_spans_actual_values (y_test : list (option Q)) (name : string)
    (y_pred : list Q) (v0 : Q) :
  In (Some v0) y_test ->
  exists lo hi,
    nth_error (fig_traces (model_figure y_test name y_pred)) 1 =
    Some (mkScatter [Some lo; Some hi] [Some lo; Some hi] "lines" "Ideal" (Some "dash")) /\
    In (Some lo) y_test /\ In (Some hi) y_test /\
    forall v, In (Some v) y_test -> (lo <= v <= hi)%Q.
Proof.
  intros Hin. apply present_In in Hin.
  unfold model_figure, series_min, series_max. simpl.
  destruct (present y_test) as [|v vs] eqn:Ep; [contradiction|].
  destruct (fold_left_Qmin_le vs v) as [L1 [L2 L3]].
  destruct (fold_left_Qmax_ge vs v) as [U1 [U2 U3]].
  exists (fold_left Qmin vs v), (fold_left Qmax vs v).
  split; [reflexivity|].
  split; [apply present_In; rewrite Ep; exact L3|].
  split; [apply present_In; rewrite Ep; exact U3|].
  intros x Hx. apply present_In in Hx. rewrite Ep in Hx.
  rewrite Forall_forall in L2, U2.
  destruct Hx as [<-|Hx]; split; auto.
Qed.

Lemma ideal_line_spans_actual_values_witness :
  In (Some (3#1)%Q) [Some (3#1)%Q; None; Some (1#1)%Q; Some (7#1)%Q] /\
  exists lo hi,
    nth_error (fig_traces (model_figure [Some (3#1)%Q; None; Some (1#1)%Q; Some (7#1)%Q]
                                        "Linear Regression" [])) 1 =
    Some (mkScatter [Some lo; Some hi] [Some lo; Some hi] "lines" "Ideal" (Some "dash")) /\
    In (Some lo) [Some (3#1)%Q; None; Some (1#1)%Q; Some (7#1)%Q] /\
    In (Some hi) [Some (3#1)%Q; None; Some (1#1)%Q; Some (7#1)%Q] /\
    forall v, In (Some v) [Some (3#1)%Q; None; Some (1#1)%Q; Some (7#1)%Q] ->
              (lo <= v <= hi)%Q.
Proof.
  assert (Hin : In (Some (3#1)%Q) [Some (3#1)%Q; None; Some (1#1)%Q; Some (7#1)%Q])
    by (left; reflexivity).
  split; [exact Hin|].
  exact (ideal_line_spans_actual_values _ "Linear Regression" [] (3#1)%Q Hin).
Defined.

Section DashboardFacts.

Variable format_2f : Q -> string.

(** The figures and descriptions after the loop: what was there, followed
    by one entry per result. *)
Lemma render_loop_eq (y_test : list (option Q))
    (results : list (string * (list Q * Q)))
    (figures : list Figure) (descriptions : list string) :
  render_loop format_2f y_test results figures descriptions =
  (figures ++ map (fun r => model_figure y_test (fst r) (fst (snd r))) results,
   descriptions ++
   map (fun r => model_description format_2f (fst r) (snd (snd r))) results).
Proof.
  revert figures descriptions.
  induction results as [|[name [y_pred mse]] results IH]; intros figures descriptions;
    simpl.
  - rewrite !app_nil_r. reflexivity.
  - rewrite IH, <- !app_assoc. reflexivity.
Qed.

Lemma combine_map_map {A B C} (f : A -> B) (g : A -> C) (l : list A) :
  combine (map f l) (map g l) = map (fun a => (f a, g a)) l.
Proof. induction l as [|a l IH]; simpl; [reflexivity|]. rewrite IH. reflexivity. Qed.

(** X16.  The page shows, after its two header components, exactly one block
    per model result in the order of the results, and each block pairs the
    figure of a model with the description of that same model. *)
Theorem dashboard_pairs_each_figure_with_its_description
    (y_test : list (option Q)) (results : list (string * (list Q * Q))) :
  dashboard format_2f y_test results =
  Div (H1 "Waste Prediction Dashboard" "center"
       :: DivText "This dashboard provides insights into waste prediction using various models."
                  "center"
       :: map (fun r =>
                 Div [Graph (model_figure y_test (fst r) (fst (snd r)));
                      P (model_description format_2f (fst r) (snd (snd r))) "center"])
              results).
Proof.
  unfold dashboard, layout. rewrite render_loop_eq. simpl.
  rewrite combine_map_map, map_map. reflexivity.
Qed.

End DashboardFacts.

(** X17.  The error Linear.py prints is the mean of the squares of the
    residuals it plots: whenever the error is defined, the residuals are
    defined for every test row, and the error equals their mean square. *)
Theorem mse_is_mean_square_of_plotted_residuals
    (y_true : list (option Q)) (y_pred : list Q) (m : Q) :
  mean_squared_error y_true y_pred = Some m ->
  exists rs,
    residuals y_true y_pred = Some (map Some rs) /\
    length rs = length y_true /\
    (m == Qsum (map (fun r => r * r) rs) / inject_Z (Z.of_nat (length rs)))%Q.
Proof.
  intros E. unfold mean_squared_error, bind in E.
  destruct (squared_errors y_true y_pred) as [es|] eqn:Ees; [|discriminate].
  assert (Hrs : exists rs, residuals y_true y_pred = Some (map Some rs) /\
                           length rs = length y_true /\
                           es = map (fun r => (r * r)%Q) rs).
  { clear E. revert y_pred es Ees.
    induction y_true as [|[t|] y_true IH]; intros [|p y_pred] es Ees;
      simpl in Ees; try discriminate.
    - injection Ees as <-. exists []. repeat split.
    - destruct (squared_errors y_true y_pred) as [es'|] eqn:E'; [|discriminate].
      unfold bind in Ees. injection Ees as <-.
      destruct (IH _ _ E') as [rs [Hr [Hl He]]].
      exists ((t - p)%Q :: rs). simpl. rewrite Hr. simpl.
      repeat split; [f_equal; exact Hl|f_equal; exact He]. }
  destruct Hrs as [rs [Hr [Hl He]]]. exists rs.
  split; [exact Hr|]. split; [exact Hl|].
  destruct es as [|e es]; [discriminate|].
  assert (Hm : m = Qred (Qsum (e :: es) / inject_Z (Z.of_nat (length (e :: es)))))
    by congruence.
  rewrite Hm, Qred_correct, He, length_map. reflexivity.
Qed.

Lemma mse_is_mean_square_of_plotted_residuals_witness :
  mean_squared_error [Some (1#1)%Q; Some (3#1)%Q] [(2#1)%Q; (2#1)%Q] = Some (1#1)%Q /\
  exists rs,
    residuals [Some (1#1)%Q; Some (3#1)%Q] [(2#1)%Q; (2#1)%Q] = Some (map Some rs) /\
    length rs = length [Some (1#1)%Q; Some (3#1)%Q] /\
    ((1#1) == Qsum (map (fun r => r * r) rs) / inject_Z (Z.of_nat (length rs)))%Q.
Proof.
  split; [reflexivity|].
  apply (mse_is_mean_square_of_plotted_residuals
           [Some (1#1)%Q; Some (3#1)%Q] [(2#1)%Q; (2#1)%Q] (1#1)%Q).
  reflexivity.
Defined.

(** * Unparseable dates *)

Section DateFacts.

Variable Format : Type.
Variable guess_format : string -> option Format.
Variable strptime : Format -> string -> option Timestamp.
Variable parse_each : string -> option Timestamp.

Local Abbreviation parser_of := (column_parser Format guess_format strptime parse_each).
Local Abbreviation inferred := (to_datetime_inferred Format guess_format strptime parse_each).
Local Abbreviation Linear_merged :=
  (Linear_merged_data Format guess_format strptime parse_each).
Local Abbreviation Linear_prep :=
  (Linear_prepare Format guess_format strptime parse_each).

(** A record that follows a record with a date does not change the first
    non-null entry of the column, hence not the parser of the column. *)
Lemma first_non_null_drop (col1 col2 : list (option string)) (c : option string) :
  (exists s, In (Some s) col1) ->
  first_non_null (col1 ++ c :: col2) = first_non_null (col1 ++ col2).
Proof.
  intros [s Hs]. unfold first_non_null. rewrite !present_app.
  apply present_In in Hs. destruct (present col1); [contradiction|reflexivity].
Qed.

Lemma column_parser_drop (col1 col2 : list (option string)) (c : option string) :
  (exists s, In (Some s) col1) ->
  parser_of (col1 ++ c :: col2) = parser_of (col1 ++ col2).
Proof.
  intros Hex. unfold column_parser. rewrite (first_non_null_drop _ _ _ Hex).
  reflexivity.
Qed.

(** With the format inferred, the parsed column still has one entry per
    input entry, and an entry the column's parser rejects is NaT. *)
Lemma to_datetime_inferred_coerces (col : list (option string)) :
  length (inferred col) = length col /\
  forall i s, nth_error col i = Some (Some s) -> parser_of col s = None ->
              nth_error (inferred col) i = Some None.
Proof.
  exact (to_datetime_coerces (parser_of col) col).
Qed.

(** The cleaned tables of Linear.py are the cleaned tables under the parser
    of each file's date column. *)
Lemma Linear_merged_data_eq (gfile : list GRaw) (hfile : list HRaw) :
  Linear_merged gfile hfile =
  range_index
    (map of_gdata (cleaned_g (parser_of (map G.generated_date gfile)) gfile) ++
     map of_hdata (cleaned_h (parser_of (map H.generated_date hfile)) hfile)).
Proof.
  unfold Linear_merged_data, concat. f_equal. f_equal.
  - f_equal.
    change (Linear_clean_gdata Format guess_format strptime parse_each (read_csv gfile))
      with (clean_gdata (parser_of (map G.generated_date (rows (read_csv gfile))))
                        (read_csv gfile)).
    rewrite rows_clean_gdata_read_csv. unfold read_csv. rewrite rows_range_index.
    reflexivity.
  - f_equal.
    change (Linear_clean_hdata Format guess_format strptime parse_each (read_csv hfile))
      with (clean_hdata (parser_of (map H.generated_date (rows (read_csv hfile))))
                        (read_csv hfile)).
    rewrite rows_clean_hdata_read_csv. unfold read_csv. rewrite rows_range_index.
    reflexivity.
Qed.

Lemma dated_record_in_column_g (gfile : list GRaw) :
  (exists r, In r gfile /\ G.generated_date r <> None) ->
  exists s, In (Some s) (map G.generated_date gfile).
Proof.
  intros [r [Hin Hd]]. destruct (G.generated_date r) as [s|] eqn:E; [|congruence].
  exists s. rewrite <- E. apply in_map. exact Hin.
Qed.

Lemma dated_record_in_column_h (hfile : list HRaw) :
  (exists r, In r hfile /\ H.generated_date r <> None) ->
  exists s, In (Some s) (map H.generated_date hfile).
Proof.
  intros [r [Hin Hd]]. destruct (H.generated_date r) as [s|] eqn:E; [|congruence].
  exists s. rewrite <- E. apply in_map. exact Hin.
Qed.

Lemma Linear_merged_drop_g (gfile1 gfile2 : list GRaw) (bad : GRaw) (hfile : list HRaw) :
  (exists r, In r gfile1 /\ G.generated_date r <> None) ->
  coerce (parser_of (map G.generated_date (gfile1 ++ bad :: gfile2)))
         (G.generated_date bad) = None ->
  Linear_merged (gfile1 ++ bad :: gfile2) hfile = Linear_merged (gfile1 ++ gfile2) hfile.
Proof.
  intros Hdated Hbad. rewrite !Linear_merged_data_eq.
  rewrite (cleaned_g_drop _ _ _ _ Hbad).
  rewrite !map_app in *. simpl map in *.
  rewrite (column_parser_drop _ _ _ (dated_record_in_column_g _ Hdated)).
  reflexivity.
Qed.

Lemma Linear_merged_drop_h (gfile : list GRaw) (hfile1 hfile2 : list HRaw) (bad : HRaw) :
  (exists r, In r hfile1 /\ H.generated_date r <> None) ->
  coerce (parser_of (map H.generated_date (hfile1 ++ bad :: hfile2)))
         (H.generated_date bad) = None ->
  Linear_merged gfile (hfile1 ++ bad :: hfile2) = Linear_merged gfile (hfile1 ++ hfile2).
Proof.
  intros Hdated Hbad. rewrite !Linear_merged_data_eq.
  rewrite (cleaned_h_drop _ _ _ _ Hbad).
  rewrite !map_app in *. simpl map in *.
  rewrite (column_parser_drop _ _ _ (dated_record_in_column_h _ Hdated)).
  reflexivity.
Qed.

Variable World : Type.
Variable RandomState : Type.
Variable seeded : Z -> RandomState.
Variable global_state : World -> RandomState.
Variable permutation : RandomState -> nat -> list nat.
Variable linear_regression :
  DataFrame XRow -> DataFrame (option Q) -> DataFrame XRow -> option (list Q).
Variable decision_tree :
  RandomState -> DataFrame XRow -> DataFrame (option Q) -> DataFrame XRow -> option (list Q).
Variable random_forest :
  RandomState -> DataFrame XRow -> DataFrame (option Q) -> DataFrame XRow -> option (list Q).
Variable parse_date_mixed : string -> option Timestamp.

Local Abbreviation run_Linear_script :=
  (Linear_script Format guess_format strptime parse_each
     World RandomState seeded global_state permutation linear_regression).
Local Abbreviation run_app :=
  (app_main World RandomState seeded global_state permutation
     linear_regression decision_tree random_forest parse_date_mixed).


End DateFacts.


